(** * ovpn-dco: key-slot rotation and peer lifecycle

    A shallow embedding of [net/ovpn-dco/crypto.c] and [net/ovpn-dco/peer.c].
    Kernel objects live in an explicit [kernel] state that every function
    threads through; each function also appends the effects it performs, in
    program order, to the kernel's [trace]. *)

From Stdlib Require Import ZArith NArith Init.Byte.
From stdpp Require Import gmap list.

Local Open Scope Z_scope.

(** ** errno values and error pointers *)

Inductive errno := ENOENT | ENOMEM | EINVAL | EOPNOTSUPP.

Definition errno_code (e : errno) : Z :=
  match e with
  | ENOENT => 2
  | ENOMEM => 12
  | EINVAL => 22
  | EOPNOTSUPP => 95
  end.

(** The value a function returning [int] hands back for [-e]. *)
Definition neg_errno (e : errno) : Z := - errno_code e.

(** A C pointer result: a valid object, [ERR_PTR(-e)], or [NULL]. *)
Inductive ptr (A : Type) :=
  | Ptr (a : A)
  | ERR_PTR (e : errno)
  | NULL.
Arguments Ptr {A} a.
Arguments ERR_PTR {A} e.
Arguments NULL {A}.

Definition IS_ERR {A} (p : ptr A) : bool :=
  match p with ERR_PTR _ => true | _ => false end.

Definition PTR_ERR (e : errno) : Z := neg_errno e.

(** ** Data model (uapi/linux/ovpn_dco.h, crypto.h)

    The enumerations are C integers: beside the constants the sources name,
    any other integer can arrive from the control path; those are kept as
    raw values. *)

Inductive ovpn_key_slot :=
  | OVPN_KEY_SLOT_PRIMARY
  | OVPN_KEY_SLOT_SECONDARY
  | OVPN_KEY_SLOT_raw (v : Z).

Inductive ovpn_crypto_families :=
  | OVPN_CRYPTO_FAMILY_UNDEF
  | OVPN_CRYPTO_FAMILY_AEAD
  | OVPN_CRYPTO_FAMILY_CBC_HMAC
  | OVPN_CRYPTO_FAMILY_raw (v : Z).

Inductive ovpn_cipher_alg :=
  | OVPN_CIPHER_ALG_AES_GCM
  | OVPN_CIPHER_ALG_AES_CBC
  | OVPN_CIPHER_ALG_raw (v : Z).

(** Modelled from the spec: the KeyConfig and KeyReset records of the
    control interface (uapi/linux/ovpn_dco.h is not part of the sources):
    [{cipher_alg, key_id, encrypt: {key_bytes, nonce_tail}, decrypt: ..}] and
    [{slot, crypto_family, remote_peer_id, key}]. *)
Record ovpn_key_direction := {
  cipher_key : list byte;
  nonce_tail : list byte }.

Record ovpn_key_config := {
  kc_cipher_alg : ovpn_cipher_alg;
  kc_key_id : N;
  kc_encrypt : ovpn_key_direction;
  kc_decrypt : ovpn_key_direction }.

Record ovpn_peer_key_reset := {
  pkr_remote_peer_id : N;
  pkr_slot : ovpn_key_slot;
  pkr_crypto_family : ovpn_crypto_families;
  pkr_key : ovpn_key_config }.

(** The dispatch tables [cs->ops] can point to.  [ovpn_aead_ops] is the only
    table the sources ever hand out; [ovpn_chm_ops] is the table named in the
    commented-out case of [ovpn_crypto_select_family]: it has no
    implementation and stands for any other table address found in
    [cs->ops].  Tables are compared by address, here by constructor. *)
Inductive ovpn_crypto_ops := ovpn_aead_ops | ovpn_chm_ops.

Global Instance ovpn_crypto_ops_eq_dec : EqDecision ovpn_crypto_ops.
Proof. solve_decision. Defined.

(** Modelled from the spec: the KeySlot (crypto.h is not part of the
    sources) holds the key id, the remote peer id, the dispatch table, the
    reader reference count and the key material of both directions. *)
Record ovpn_crypto_key_slot := {
  ks_key_id : N;
  ks_remote_peer_id : N;
  ks_ops : ovpn_crypto_ops;
  ks_refcount : N;
  ks_encrypt : ovpn_key_direction;
  ks_decrypt : ovpn_key_direction }.

(** Modelled from the spec: the CryptoState (crypto.h).
    [primary] and [secondary] are RCU pointers to key slots (addresses in the
    kernel's slot heap); [ops] is the bound family table.  The mutex carries
    no data: the functions below that are [__must_hold(cs->mutex)] are
    modelled as called with the mutex held. *)
Record ovpn_crypto_state := {
  cs_primary : option N;
  cs_secondary : option N;
  cs_ops : option ovpn_crypto_ops }.

(** ** Effects *)

Inductive timer_id := KEEPALIVE_XMIT | KEEPALIVE_EXPIRE.
Inductive ring_id := TX_RING | RX_RING.

Inductive event :=
  | EvKsNew (a : N)                                   (* ops->new returned slot a *)
  | EvKsSetRemotePeerId (a id : N)                    (* new->remote_peer_id = id *)
  | EvRcuReplace (s : ovpn_key_slot) (new old : option N)  (* slot pointer store *)
  | EvKsPut (a : N)                                   (* ovpn_crypto_key_slot_put *)
  | EvKsCallRcu (a : N)                               (* call_rcu(.., ovpn_ks_destroy_rcu) *)
  | EvKsDestroy (a : N)                               (* ks->ops->destroy(ks) *)
  | EvCryptoMutexDestroy                              (* mutex_destroy(&cs->mutex) *)
  | EvBindReset                                       (* ovpn_bind_reset(peer, NULL) *)
  | EvTimerDelete (t : timer_id) (was_pending : bool) (* ovpn_timer_delete *)
  | EvWarn                                            (* WARN_ON fired *)
  | EvRingCleanup (r : ring_id) (freed : nat)         (* ptr_ring_cleanup *)
  | EvDevHold                                         (* dev_hold(ovpn->dev) *)
  | EvDevPut                                          (* dev_put(peer->ovpn->dev) *)
  | EvPeerMutexDestroy                                (* mutex_destroy(&peer->mutex) *)
  | EvKmallocPeer                                     (* kmalloc of the peer object *)
  | EvRingInit (r : ring_id)                          (* ptr_ring_init succeeded *)
  | EvKfreePeer                                       (* kfree(peer) *)
  | EvPeerCallRcu.                                    (* call_rcu(.., ovpn_peer_release_rcu) *)

Inductive kobj := KPeer | KRing (r : ring_id).

Global Instance ring_id_eq_dec : EqDecision ring_id.
Proof. solve_decision. Defined.
Global Instance kobj_eq_dec : EqDecision kobj.
Proof. solve_decision. Defined.

(** The part of the kernel the two files act on. *)
Record kernel := {
  ks_heap : gmap N ovpn_crypto_key_slot;  (* allocated key slots, by address *)
  ks_rcu : list N;                         (* slots queued for ovpn_ks_destroy_rcu *)
  kmem : list kobj;                        (* live peer and ring allocations *)
  dev_refcnt : N;                          (* references on the tunnel device *)
  peer_rcu : nat;                          (* queued ovpn_peer_release_rcu callbacks *)
  trace : list event }.

Definition log (e : event) (k : kernel) : kernel :=
  {| ks_heap := ks_heap k; ks_rcu := ks_rcu k; kmem := kmem k;
     dev_refcnt := dev_refcnt k; peer_rcu := peer_rcu k;
     trace := trace k ++ [e] |}.

Definition set_ks_heap (h : gmap N ovpn_crypto_key_slot) (k : kernel) : kernel :=
  {| ks_heap := h; ks_rcu := ks_rcu k; kmem := kmem k;
     dev_refcnt := dev_refcnt k; peer_rcu := peer_rcu k; trace := trace k |}.

Definition set_ks_rcu (q : list N) (k : kernel) : kernel :=
  {| ks_heap := ks_heap k; ks_rcu := q; kmem := kmem k;
     dev_refcnt := dev_refcnt k; peer_rcu := peer_rcu k; trace := trace k |}.

Definition set_kmem (m : list kobj) (k : kernel) : kernel :=
  {| ks_heap := ks_heap k; ks_rcu := ks_rcu k; kmem := m;
     dev_refcnt := dev_refcnt k; peer_rcu := peer_rcu k; trace := trace k |}.

Definition set_dev_refcnt (n : N) (k : kernel) : kernel :=
  {| ks_heap := ks_heap k; ks_rcu := ks_rcu k; kmem := kmem k;
     dev_refcnt := n; peer_rcu := peer_rcu k; trace := trace k |}.

Definition set_peer_rcu (n : nat) (k : kernel) : kernel :=
  {| ks_heap := ks_heap k; ks_rcu := ks_rcu k; kmem := kmem k;
     dev_refcnt := dev_refcnt k; peer_rcu := n; trace := trace k |}.

Definition set_ks_refcount (n : N) (ks : ovpn_crypto_key_slot) : ovpn_crypto_key_slot :=
  {| ks_key_id := ks_key_id ks; ks_remote_peer_id := ks_remote_peer_id ks;
     ks_ops := ks_ops ks; ks_refcount := n;
     ks_encrypt := ks_encrypt ks; ks_decrypt := ks_decrypt ks |}.

Definition set_ks_remote_peer_id (id : N) (ks : ovpn_crypto_key_slot) : ovpn_crypto_key_slot :=
  {| ks_key_id := ks_key_id ks; ks_remote_peer_id := id;
     ks_ops := ks_ops ks; ks_refcount := ks_refcount ks;
     ks_encrypt := ks_encrypt ks; ks_decrypt := ks_decrypt ks |}.

(** [kref_put]: the new count and whether the release function runs.  A put
    on a count that is already zero saturates (the kernel warns) and releases
    nothing. *)
Definition kref_put (n : N) : N * bool :=
  match n with
  | 0%N => (0%N, false)
  | _ => (N.pred n, N.eqb n 1)
  end.

(** [kref_get_unless_zero]: fails on a zero count. *)
Definition kref_get_unless_zero (n : N) : N * bool :=
  match n with
  | 0%N => (0%N, false)
  | _ => (N.succ n, true)
  end.

(** ** crypto.c *)

Section Crypto.

(** The external AEAD library: [None] when both cipher contexts could be set
    up for the key material, [Some e] when it (or the allocator) refused. *)
Variable aead_setup : ovpn_key_config -> option errno.

(** Modelled from the spec: the slot the AEAD family builds from a
    KeyConfig (aead.c is not part of the sources): the config's key id and
    key material, one reference, no remote peer id yet. *)
Definition aead_key_slot (kc : ovpn_key_config) : ovpn_crypto_key_slot :=
  {| ks_key_id := kc_key_id kc; ks_remote_peer_id := 0%N;
     ks_ops := ovpn_aead_ops; ks_refcount := 1%N;
     ks_encrypt := kc_encrypt kc; ks_decrypt := kc_decrypt kc |}.

(** Modelled from the spec: the AEAD family's [new] operation
    ([ovpn_aead_ops.new], aead.c) is not part of the sources.  Per the spec it
    builds the slot from the KeyConfig and rejects unsupported algorithms
    with "unsupported" and key material the cipher refuses with the cipher's
    error; a failed construction leaves nothing allocated.  The slot starts
    with one reference, the one the crypto state will own. *)
Definition ovpn_aead_crypto_key_slot_new (kc : ovpn_key_config) (k : kernel)
  : ptr N * kernel :=
  match kc_cipher_alg kc with
  | OVPN_CIPHER_ALG_AES_GCM =>
      match aead_setup kc with
      | Some e => (ERR_PTR e, k)
      | None =>
          let a := fresh (dom (ks_heap k)) in
          (Ptr a, log (EvKsNew a) (set_ks_heap (<[a := aead_key_slot kc]> (ks_heap k)) k))
      end
  | _ => (ERR_PTR EOPNOTSUPP, k)
  end.

(** Modelled from the spec: the AEAD family's [destroy] operation (aead.c)
    releases the slot's contexts and the slot itself. *)
Definition ovpn_aead_crypto_key_slot_destroy (a : N) (k : kernel) : kernel :=
  log (EvKsDestroy a) (set_ks_heap (delete a (ks_heap k)) k).

(** Calls through a dispatch table; a table without implementation cannot be
    called. *)
Definition ops_new (o : ovpn_crypto_ops)
  : option (ovpn_key_config -> kernel -> ptr N * kernel) :=
  match o with
  | ovpn_aead_ops => Some ovpn_aead_crypto_key_slot_new
  | ovpn_chm_ops => None
  end.

Definition ops_destroy (o : ovpn_crypto_ops) : option (N -> kernel -> kernel) :=
  match o with
  | ovpn_aead_ops => Some ovpn_aead_crypto_key_slot_destroy
  | ovpn_chm_ops => None
  end.

(** [ovpn_ks_new]: [None] is a call through a missing function pointer. *)
Definition ovpn_ks_new (ops : option ovpn_crypto_ops) (kc : ovpn_key_config)
    (k : kernel) : option (ptr N * kernel) :=
  match ops with
  | None => None
  | Some o =>
      match ops_new o with
      | None => None
      | Some new => Some (new kc k)
      end
  end.

(** [ovpn_ks_destroy_rcu] *)
Definition ovpn_ks_destroy_rcu (a : N) (k : kernel) : kernel :=
  match ks_heap k !! a with
  | None => k
  | Some ks =>
      match ops_destroy (ks_ops ks) with
      | Some destroy => destroy a k
      | None => k
      end
  end.

(** [ovpn_crypto_key_slot_release] *)
Definition ovpn_crypto_key_slot_release (a : N) (k : kernel) : kernel :=
  log (EvKsCallRcu a) (set_ks_rcu (ks_rcu k ++ [a]) k).

(** Modelled from the spec: [ovpn_crypto_key_slot_put] (crypto.h) drops
    the counted reference; reaching zero hands the slot to
    [ovpn_crypto_key_slot_release]. *)
Definition ovpn_crypto_key_slot_put (a : N) (k : kernel) : kernel :=
  let k := log (EvKsPut a) k in
  match ks_heap k !! a with
  | None => k
  | Some ks =>
      let '(n, released) := kref_put (ks_refcount ks) in
      let k := set_ks_heap (<[a := set_ks_refcount n ks]> (ks_heap k)) k in
      if released then ovpn_crypto_key_slot_release a k else k
  end.

(** The end of a grace period: every queued destructor runs. *)
Definition rcu_grace_period (k : kernel) : kernel :=
  foldl (fun k a => ovpn_ks_destroy_rcu a k) (set_ks_rcu [] k) (ks_rcu k).

(** Modelled from the spec: [ovpn_crypto_state_init] (crypto.h) gives an
    empty CryptoState with no bound family. *)
Definition ovpn_crypto_state_init : ovpn_crypto_state :=
  {| cs_primary := None; cs_secondary := None; cs_ops := None |}.

(** [ovpn_crypto_state_release] *)
Definition ovpn_crypto_state_release (cs : ovpn_crypto_state) (k : kernel)
  : ovpn_crypto_state * kernel :=
  let '(cs, k) :=
    match cs_primary cs with
    | Some ks =>
        ({| cs_primary := None; cs_secondary := cs_secondary cs; cs_ops := cs_ops cs |},
         ovpn_crypto_key_slot_put ks
           (log (EvRcuReplace OVPN_KEY_SLOT_PRIMARY None (Some ks)) k))
    | None => (cs, k)
    end in
  let '(cs, k) :=
    match cs_secondary cs with
    | Some ks =>
        ({| cs_primary := cs_primary cs; cs_secondary := None; cs_ops := cs_ops cs |},
         ovpn_crypto_key_slot_put ks
           (log (EvRcuReplace OVPN_KEY_SLOT_SECONDARY None (Some ks)) k))
    | None => (cs, k)
    end in
  (cs, log EvCryptoMutexDestroy k).

(** [ovpn_crypto_state_reset].  The result is [None] when the call goes
    through a null or unimplemented [cs->ops], or when [new] hands back
    [NULL], which the function dereferences. *)
Definition ovpn_crypto_state_reset (cs : ovpn_crypto_state)
    (pkr : ovpn_peer_key_reset) (k : kernel)
  : option (Z * ovpn_crypto_state * kernel) :=
  match ovpn_ks_new (cs_ops cs) (pkr_key pkr) k with
  | None => None
  | Some (NULL, _) => None
  | Some (ERR_PTR e, k) => Some (PTR_ERR e, cs, k)
  | Some (Ptr new, k) =>
      let k := log (EvKsSetRemotePeerId new (pkr_remote_peer_id pkr))
                 (set_ks_heap
                    (alter (set_ks_remote_peer_id (pkr_remote_peer_id pkr)) new (ks_heap k))
                    k) in
      let installed :=
        match pkr_slot pkr with
        | OVPN_KEY_SLOT_PRIMARY =>
            Some (cs_primary cs,
                  {| cs_primary := Some new; cs_secondary := cs_secondary cs;
                     cs_ops := cs_ops cs |})
        | OVPN_KEY_SLOT_SECONDARY =>
            Some (cs_secondary cs,
                  {| cs_primary := cs_primary cs; cs_secondary := Some new;
                     cs_ops := cs_ops cs |})
        | OVPN_KEY_SLOT_raw _ => None
        end in
      match installed with
      | Some (old, cs') =>
          let k := log (EvRcuReplace (pkr_slot pkr) (Some new) old) k in
          let k := match old with
                   | Some o => ovpn_crypto_key_slot_put o k
                   | None => k
                   end in
          Some (0, cs', k)
      | None =>
          (* free_key: *)
          Some (neg_errno EINVAL, cs, ovpn_crypto_key_slot_put new k)
      end
  end.

(** [ovpn_crypto_key_slot_delete] *)
Definition ovpn_crypto_key_slot_delete (cs : ovpn_crypto_state)
    (slot : ovpn_key_slot) (k : kernel) : ovpn_crypto_state * kernel :=
  let '(ks, cs, k) :=
    match slot with
    | OVPN_KEY_SLOT_PRIMARY =>
        (cs_primary cs,
         {| cs_primary := None; cs_secondary := cs_secondary cs; cs_ops := cs_ops cs |},
         log (EvRcuReplace slot None (cs_primary cs)) k)
    | OVPN_KEY_SLOT_SECONDARY =>
        (cs_secondary cs,
         {| cs_primary := cs_primary cs; cs_secondary := None; cs_ops := cs_ops cs |},
         log (EvRcuReplace slot None (cs_secondary cs)) k)
    | OVPN_KEY_SLOT_raw _ => (None, cs, k)
    end in
  match ks with
  | None => (cs, k)
  | Some a => (cs, ovpn_crypto_key_slot_put a k)
  end.

(** [ovpn_crypto_select_family]: the table for the requested family, or
    [None] for [NULL]. *)
Definition ovpn_crypto_select_family (pkr : ovpn_peer_key_reset)
  : option ovpn_crypto_ops :=
  match pkr_crypto_family pkr with
  | OVPN_CRYPTO_FAMILY_UNDEF => None
  | OVPN_CRYPTO_FAMILY_AEAD => Some ovpn_aead_ops
  | _ => None
  end.

(** [ovpn_crypto_state_select_family] *)
Definition ovpn_crypto_state_select_family (cs : ovpn_crypto_state)
    (pkr : ovpn_peer_key_reset) : Z * ovpn_crypto_state :=
  match ovpn_crypto_select_family pkr with
  | None => (neg_errno EOPNOTSUPP, cs)
  | Some new_ops =>
      match cs_ops cs with
      | Some ops =>
          if decide (ops = new_ops)
          then (0, {| cs_primary := cs_primary cs; cs_secondary := cs_secondary cs;
                      cs_ops := Some new_ops |})
          else (neg_errno EINVAL, cs) (* family changed? *)
      | None =>
          (0, {| cs_primary := cs_primary cs; cs_secondary := cs_secondary cs;
                 cs_ops := Some new_ops |})
      end
  end.

(** [ovpn_keys_familiy_get] *)
Definition ovpn_keys_familiy_get (kc : ovpn_key_config) : ovpn_crypto_families :=
  match kc_cipher_alg kc with
  | OVPN_CIPHER_ALG_AES_GCM => OVPN_CRYPTO_FAMILY_AEAD
  | OVPN_CIPHER_ALG_AES_CBC => OVPN_CRYPTO_FAMILY_CBC_HMAC
  | _ => OVPN_CRYPTO_FAMILY_UNDEF
  end.

(** Modelled from the spec: [ovpn_crypto_key_slot_hold] (crypto.h), the
    reader reference a lookup takes; it fails on a slot whose count is
    zero. *)
Definition ovpn_crypto_key_slot_hold (a : N) (k : kernel) : bool * kernel :=
  match ks_heap k !! a with
  | None => (false, k)
  | Some ks =>
      let '(n, ok) := kref_get_unless_zero (ks_refcount ks) in
      (ok, set_ks_heap (<[a := set_ks_refcount n ks]> (ks_heap k)) k)
  end.

(** The slot behind an RCU pointer, if its key id is the one asked for. *)
Definition ks_has_key_id (k : kernel) (key_id : N) (p : option N) : option N :=
  match p with
  | None => None
  | Some a =>
      match ks_heap k !! a with
      | Some ks => if N.eqb (ks_key_id ks) key_id then Some a else None
      | None => None
      end
  end.

(** Modelled from the spec: [lookup(key_id)] ([ovpn_crypto_key_id_to_slot],
    crypto.h) is not part of the sources.  Per the spec it returns a handle
    to the slot whose key id matches, with a reader reference held, and
    "no-key" ([NULL], here [None]) if neither slot matches. *)
Definition ovpn_crypto_key_id_to_slot (cs : ovpn_crypto_state) (key_id : N)
    (k : kernel) : option N * kernel :=
  match ks_has_key_id k key_id (cs_primary cs) with
  | Some a =>
      let '(ok, k) := ovpn_crypto_key_slot_hold a k in
      (if ok then Some a else None, k)
  | None =>
      match ks_has_key_id k key_id (cs_secondary cs) with
      | Some a =>
          let '(ok, k) := ovpn_crypto_key_slot_hold a k in
          (if ok then Some a else None, k)
      | None => (None, k)
      end
  end.

End Crypto.

(** ** Timers (timer.h) and the peer object (peer.h) *)

(** Modelled from the spec: a timer (timer.h is not part of the sources)
    has a period and an armed state. *)
Record ovpn_timer := {
  period : N;       (* 0: no period *)
  pending : bool }. (* armed in the kernel timer wheel *)

(** Modelled from the spec: the timer helpers of timer.h are not part of the
    sources.  A timer is [{period, armed, callback}]; it starts disarmed
    with no period. *)
Definition ovpn_timer_init : ovpn_timer := {| period := 0%N; pending := false |}.

(** Modelled from the spec: [ovpn_timer_set_period] (timer.h) updates the
    period and leaves the arming state alone. *)
Definition ovpn_timer_set_period (t : ovpn_timer) (p : N) : ovpn_timer :=
  {| period := p; pending := pending t |}.

(** Modelled from the spec: [ovpn_timer_schedule] (timer.h).  With a period
    it (re)arms the timer and reports whether the timer was already pending,
    as [mod_timer] does.  A period of zero disarms the timer: a pending timer
    is cancelled and nothing is armed.  The report then is [true]: the
    caller takes [false] to mean that a timer has newly been armed and owes
    a reference, and with a zero period none has.  The helper is handed the
    timer and the lock, never the peer, so it adjusts no reference count. *)
Definition ovpn_timer_schedule (t : ovpn_timer) : bool * ovpn_timer :=
  if N.eqb (period t) 0 then (true, {| period := period t; pending := false |})
  else (pending t, {| period := period t; pending := true |}).

(** Modelled from the spec: [ovpn_timer_delete] (timer.h) cancels the timer
    and reports whether it was pending, as [del_timer] does. *)
Definition ovpn_timer_delete (t : ovpn_timer) : bool * ovpn_timer :=
  (pending t, {| period := period t; pending := false |}).

Inductive ovpn_status := OVPN_STATUS_ACTIVE.

(** Modelled from the spec: the Peer (peer.h is not part of the sources),
    with the fields peer.c reads and writes. *)
Record ovpn_peer := {
  status : ovpn_status;
  halt : bool;
  bind : option N;                 (* RCU pointer to the current bind *)
  crypto : ovpn_crypto_state;
  refcount : N;
  tx_ring : list N;                (* queued packet buffers *)
  rx_ring : list N;
  keepalive_xmit : ovpn_timer;
  keepalive_expire : ovpn_timer }.

Definition set_halt (b : bool) (p : ovpn_peer) : ovpn_peer :=
  {| status := status p; halt := b; bind := bind p; crypto := crypto p;
     refcount := refcount p; tx_ring := tx_ring p; rx_ring := rx_ring p;
     keepalive_xmit := keepalive_xmit p; keepalive_expire := keepalive_expire p |}.

Definition set_bind (b : option N) (p : ovpn_peer) : ovpn_peer :=
  {| status := status p; halt := halt p; bind := b; crypto := crypto p;
     refcount := refcount p; tx_ring := tx_ring p; rx_ring := rx_ring p;
     keepalive_xmit := keepalive_xmit p; keepalive_expire := keepalive_expire p |}.

Definition set_crypto (cs : ovpn_crypto_state) (p : ovpn_peer) : ovpn_peer :=
  {| status := status p; halt := halt p; bind := bind p; crypto := cs;
     refcount := refcount p; tx_ring := tx_ring p; rx_ring := rx_ring p;
     keepalive_xmit := keepalive_xmit p; keepalive_expire := keepalive_expire p |}.

Definition set_refcount (n : N) (p : ovpn_peer) : ovpn_peer :=
  {| status := status p; halt := halt p; bind := bind p; crypto := crypto p;
     refcount := n; tx_ring := tx_ring p; rx_ring := rx_ring p;
     keepalive_xmit := keepalive_xmit p; keepalive_expire := keepalive_expire p |}.

Definition get_timer (t : timer_id) (p : ovpn_peer) : ovpn_timer :=
  match t with
  | KEEPALIVE_XMIT => keepalive_xmit p
  | KEEPALIVE_EXPIRE => keepalive_expire p
  end.

Definition set_timer (t : timer_id) (v : ovpn_timer) (p : ovpn_peer) : ovpn_peer :=
  match t with
  | KEEPALIVE_XMIT =>
      {| status := status p; halt := halt p; bind := bind p; crypto := crypto p;
         refcount := refcount p; tx_ring := tx_ring p; rx_ring := rx_ring p;
         keepalive_xmit := v; keepalive_expire := keepalive_expire p |}
  | KEEPALIVE_EXPIRE =>
      {| status := status p; halt := halt p; bind := bind p; crypto := crypto p;
         refcount := refcount p; tx_ring := tx_ring p; rx_ring := rx_ring p;
         keepalive_xmit := keepalive_xmit p; keepalive_expire := v |}
  end.

(** [kfree] of one tracked allocation: the first matching entry goes. *)
Fixpoint kfree (o : kobj) (m : list kobj) : list kobj :=
  match m with
  | [] => []
  | x :: m' => if decide (x = o) then m' else x :: kfree o m'
  end.

(** [ptr_ring_cleanup(ring, destroy)]: every entry left is handed to
    [destroy] (here [ovpn_peer_clean_ring], a [kfree]) and the ring's array is
    freed. *)
Definition ptr_ring_cleanup (r : ring_id) (entries : list N) (k : kernel) : kernel :=
  log (EvRingCleanup r (length entries)) (set_kmem (kfree (KRing r) (kmem k)) k).

(** What the allocator answers during one [ovpn_peer_new]. *)
Record alloc_outcome := {
  kmalloc_peer_ok : bool;     (* kmalloc returned non-NULL *)
  tx_ring_init_ret : Z;       (* ptr_ring_init(&peer->tx_ring, ..) *)
  rx_ring_init_ret : Z }.     (* ptr_ring_init(&peer->rx_ring, ..) *)

(** ** peer.c *)

(** [ovpn_peer_release_kref] *)
Definition ovpn_peer_release_kref (k : kernel) : kernel :=
  log EvPeerCallRcu (set_peer_rcu (S (peer_rcu k)) k).

(** Modelled from the spec: [ovpn_peer_hold] (peer.h) takes a reference
    unless the count is already zero. *)
Definition ovpn_peer_hold (p : ovpn_peer) : bool * ovpn_peer :=
  let '(n, ok) := kref_get_unless_zero (refcount p) in (ok, set_refcount n p).

(** Modelled from the spec: [ovpn_peer_put] (peer.h) drops a reference and,
    on zero, schedules the deferred release through
    [ovpn_peer_release_kref]. *)
Definition ovpn_peer_put (p : ovpn_peer) (k : kernel) : ovpn_peer * kernel :=
  let '(n, released) := kref_put (refcount p) in
  (set_refcount n p, if released then ovpn_peer_release_kref k else k).

(** [ovpn_peer_new] *)
Definition ovpn_peer_new (env : alloc_outcome) (k : kernel) : ptr ovpn_peer * kernel :=
  if negb (kmalloc_peer_ok env) then (ERR_PTR ENOMEM, k)
  else
    let k := log EvKmallocPeer (set_kmem (KPeer :: kmem k) k) in
    let peer := {| status := OVPN_STATUS_ACTIVE; halt := false; bind := None;
                   crypto := ovpn_crypto_state_init; refcount := 1%N;
                   tx_ring := []; rx_ring := [];
                   keepalive_xmit := ovpn_timer_init;
                   keepalive_expire := ovpn_timer_init |} in
    if tx_ring_init_ret env <? 0 then
      (* err: *)
      (NULL, log EvKfreePeer (set_kmem (kfree KPeer (kmem k)) k))
    else
      let k := log (EvRingInit TX_RING) (set_kmem (KRing TX_RING :: kmem k) k) in
      if rx_ring_init_ret env <? 0 then
        (* err_tx_ring: *)
        let k := ptr_ring_cleanup TX_RING [] k in
        (NULL, log EvKfreePeer (set_kmem (kfree KPeer (kmem k)) k))
      else
        let k := log (EvRingInit RX_RING) (set_kmem (KRing RX_RING :: kmem k) k) in
        let k := log EvDevHold (set_dev_refcnt (N.succ (dev_refcnt k)) k) in
        (Ptr peer, k).

(** [ovpn_peer_reset_sockaddr]; [bind] is what
    [ovpn_bind_from_sockaddr_pair] (bind.c) returned. *)
Definition ovpn_peer_reset_sockaddr (peer : ovpn_peer) (bind : ptr N) (k : kernel)
  : Z * ovpn_peer * kernel :=
  match bind with
  | ERR_PTR e => (PTR_ERR e, peer, k)
  | Ptr b => (0, set_bind (Some b) peer, log EvBindReset k)
  | NULL => (0, set_bind None peer, log EvBindReset k)
  end.

(** [ovpn_peer_timer_delete] *)
Definition ovpn_peer_timer_delete (peer : ovpn_peer) (t : timer_id) (k : kernel)
  : ovpn_peer * kernel :=
  let '(was, t') := ovpn_timer_delete (get_timer t peer) in
  let peer := set_timer t t' peer in
  let k := log (EvTimerDelete t was) k in
  if was then ovpn_peer_put peer k else (peer, k).

(** [ovpn_peer_timer_delete_all] *)
Definition ovpn_peer_timer_delete_all (peer : ovpn_peer) (k : kernel)
  : ovpn_peer * kernel :=
  let '(peer, k) := ovpn_peer_timer_delete peer KEEPALIVE_XMIT k in
  ovpn_peer_timer_delete peer KEEPALIVE_EXPIRE k.

(** [ovpn_peer_release]: the peer is gone afterwards, only the kernel
    remains. *)
Definition ovpn_peer_release (peer : ovpn_peer) (k : kernel) : kernel :=
  let peer := set_bind None peer in
  let k := log EvBindReset k in
  let '(peer, k) := ovpn_peer_timer_delete_all peer k in
  let k := match tx_ring peer with [] => k | _ => log EvWarn k end in
  let k := ptr_ring_cleanup TX_RING (tx_ring peer) k in
  let k := match rx_ring peer with [] => k | _ => log EvWarn k end in
  let k := ptr_ring_cleanup RX_RING (rx_ring peer) k in
  let k := log EvDevPut (set_dev_refcnt (N.pred (dev_refcnt k)) k) in
  let k := log EvPeerMutexDestroy k in
  log EvKfreePeer (set_kmem (kfree KPeer (kmem k)) k).

(** [ovpn_peer_release_rcu] *)
Definition ovpn_peer_release_rcu (peer : ovpn_peer) (k : kernel) : kernel :=
  let '(cs, k) := ovpn_crypto_state_release (crypto peer) k in
  ovpn_peer_release (set_crypto cs peer) k.

(** [ovpn_peer_delete] *)
Definition ovpn_peer_delete (peer : ovpn_peer) (k : kernel) : ovpn_peer * kernel :=
  if halt peer then (peer, k)
  else ovpn_peer_put (set_halt true peer) k.

(** [ovpn_peer_new_with_sockaddr]; [None] when the function goes on with a
    peer pointer that is [NULL]. *)
Definition ovpn_peer_new_with_sockaddr (env : alloc_outcome) (bind : ptr N)
    (k : kernel) : option (ptr ovpn_peer * kernel) :=
  match ovpn_peer_new env k with
  | (ERR_PTR e, k) => Some (ERR_PTR e, k)
  | (NULL, _) => None
  | (Ptr peer, k) =>
      match bind with
      | ERR_PTR e =>
          let '(_, peer, k) := ovpn_peer_reset_sockaddr peer bind k in
          Some (ERR_PTR e, ovpn_peer_release peer k)
      | _ =>
          let '(_, peer, k) := ovpn_peer_reset_sockaddr peer bind k in
          Some (Ptr peer, k)
      end
  end.

(** [ovpn_peer_timer_schedule] *)
Definition ovpn_peer_timer_schedule (peer : ovpn_peer) (t : timer_id)
    (rcdelta : Z) (k : kernel) : ovpn_peer * kernel :=
  let '(was, t') := ovpn_timer_schedule (get_timer t peer) in
  let peer := set_timer t t' peer in
  let rcdelta := if was then rcdelta else rcdelta + 1 in
  match rcdelta with
  | 0 => (peer, k)
  | 1 =>
      let '(ok, held) := ovpn_peer_hold peer in
      if ok then (held, k)
      else (set_timer t (snd (ovpn_timer_delete (get_timer t peer))) peer, k)
  | -1 => ovpn_peer_put peer k
  | _ => (peer, log EvWarn k)
  end.

(** [ovpn_peer_keepalive_expire_handler]: the timer has fired, its
    reference is dropped. *)
Definition ovpn_peer_keepalive_expire_handler (peer : ovpn_peer) (k : kernel)
  : ovpn_peer * kernel :=
  ovpn_peer_put peer k.

(** [ovpn_peer_set_keepalive] *)
Definition ovpn_peer_set_keepalive (peer : ovpn_peer)
    (keepalive_ping keepalive_timeout : N) (k : kernel) : ovpn_peer * kernel :=
  let peer := set_timer KEEPALIVE_XMIT
                (ovpn_timer_set_period (keepalive_xmit peer) keepalive_ping) peer in
  let '(peer, k) := ovpn_peer_timer_schedule peer KEEPALIVE_XMIT 0 k in
  let peer := set_timer KEEPALIVE_EXPIRE
                (ovpn_timer_set_period (keepalive_expire peer) keepalive_timeout) peer in
  ovpn_peer_timer_schedule peer KEEPALIVE_EXPIRE 0 k.

(** ** Concrete inputs: the literal scenarios of the specification *)

Definition kernel0 : kernel :=
  {| ks_heap := ∅; ks_rcu := []; kmem := []; dev_refcnt := 1%N;
     peer_rcu := 0%nat; trace := [] |}.

(** A cipher library that accepts every key. *)
Definition aead_accepts : ovpn_key_config -> option errno := fun _ => None.

(** A cipher library that is out of memory. *)
Definition aead_enomem : ovpn_key_config -> option errno := fun _ => Some ENOMEM.

(** S1: K1 = AES-GCM, key id 0x000001, 32-byte keys, 4-byte nonce tails. *)
Definition K1 : ovpn_key_config :=
  {| kc_cipher_alg := OVPN_CIPHER_ALG_AES_GCM;
     kc_key_id := 1%N;
     kc_encrypt := {| cipher_key := repeat x11 32; nonce_tail := repeat xaa 4 |};
     kc_decrypt := {| cipher_key := repeat x22 32; nonce_tail := repeat xbb 4 |} |}.

Definition S1_select : ovpn_peer_key_reset :=
  {| pkr_remote_peer_id := 2%N; pkr_slot := OVPN_KEY_SLOT_PRIMARY;
     pkr_crypto_family := OVPN_CRYPTO_FAMILY_AEAD; pkr_key := K1 |}.

(** S3: the same request with an AES-CBC key. *)
Definition K_cbc : ovpn_key_config :=
  {| kc_cipher_alg := OVPN_CIPHER_ALG_AES_CBC;
     kc_key_id := 1%N;
     kc_encrypt := kc_encrypt K1; kc_decrypt := kc_decrypt K1 |}.

Definition S3_reset : ovpn_peer_key_reset :=
  {| pkr_remote_peer_id := 2%N; pkr_slot := OVPN_KEY_SLOT_PRIMARY;
     pkr_crypto_family := OVPN_CRYPTO_FAMILY_AEAD; pkr_key := K_cbc |}.

Definition select_cbc_hmac : ovpn_peer_key_reset :=
  {| pkr_remote_peer_id := 2%N; pkr_slot := OVPN_KEY_SLOT_PRIMARY;
     pkr_crypto_family := OVPN_CRYPTO_FAMILY_CBC_HMAC; pkr_key := K_cbc |}.

Definition bad_slot_reset : ovpn_peer_key_reset :=
  {| pkr_remote_peer_id := 2%N; pkr_slot := OVPN_KEY_SLOT_raw 7;
     pkr_crypto_family := OVPN_CRYPTO_FAMILY_AEAD; pkr_key := K1 |}.

(** A crypto state bound to the AEAD family, as [select_family(AEAD)] leaves
    a fresh state. *)
Definition cs_aead : ovpn_crypto_state :=
  {| cs_primary := None; cs_secondary := None; cs_ops := Some ovpn_aead_ops |}.

(** A crypto state whose [ops] holds a table other than the AEAD one. *)
Definition cs_foreign : ovpn_crypto_state :=
  {| cs_primary := None; cs_secondary := None; cs_ops := Some ovpn_chm_ops |}.

(** The slot pointer a request addresses. *)
Definition slot_ptr (s : ovpn_key_slot) (cs : ovpn_crypto_state) : option N :=
  match s with
  | OVPN_KEY_SLOT_PRIMARY => cs_primary cs
  | OVPN_KEY_SLOT_SECONDARY => cs_secondary cs
  | OVPN_KEY_SLOT_raw _ => None
  end.

(** [e1] happens before [e2] in a trace. *)
Definition before (e1 e2 : event) (l : list event) : Prop :=
  exists l1 l2 l3, l = l1 ++ e1 :: l2 ++ e2 :: l3.

(** The families the specification calls recognised: "Two families are
    recognised: AEAD; CBC-HMAC". *)
Definition spec_recognised_family (f : ovpn_crypto_families) : Prop :=
  f = OVPN_CRYPTO_FAMILY_AEAD \/ f = OVPN_CRYPTO_FAMILY_CBC_HMAC.

(** ** Auxiliary notions for the statements *)

(** The kernel after a slot was built, stamped, found to address no slot and
    put again: the slot sits at a fresh address with no reference left,
    queued for its destructor. *)
Definition kernel_after_dropped_slot (k : kernel) (kc : ovpn_key_config) (id : N) : kernel :=
  let new := fresh (dom (ks_heap k)) in
  {| ks_heap := <[new := set_ks_refcount 0 (set_ks_remote_peer_id id (aead_key_slot kc))]>
                  (ks_heap k);
     ks_rcu := ks_rcu k ++ [new];
     kmem := kmem k; dev_refcnt := dev_refcnt k; peer_rcu := peer_rcu k;
     trace := trace k ++ [EvKsNew new; EvKsSetRemotePeerId new id;
                          EvKsPut new; EvKsCallRcu new] |}.

(** What [ovpn_ks_destroy_rcu] does to the slot heap. *)
Definition destroy_in_heap (h : gmap N ovpn_crypto_key_slot) (a : N)
  : gmap N ovpn_crypto_key_slot :=
  match h !! a with
  | Some ks =>
      match ks_ops ks with
      | ovpn_aead_ops => delete a h
      | ovpn_chm_ops => h
      end
  | None => h
  end.


(** [n] calls of [ovpn_peer_delete] in a row. *)
Definition ovpn_peer_delete_n (n : nat) (peer : ovpn_peer) (k : kernel)
  : ovpn_peer * kernel :=
  Nat.iter n (fun pk => ovpn_peer_delete (fst pk) (snd pk)) (peer, k).

(** Arming state of a timer, and of both, as a count. *)
Definition timer_armed (t : timer_id) (p : ovpn_peer) : Z :=
  if pending (get_timer t p) then 1 else 0.

Definition armed_timers (p : ovpn_peer) : Z :=
  timer_armed KEEPALIVE_XMIT p + timer_armed KEEPALIVE_EXPIRE p.

(** The steps of the peer release routine, and the step an effect belongs
    to. *)
Inductive release_step :=
  | RelBind | RelTimers | RelQueues | RelDevice | RelCrypto | RelFree.

Global Instance release_step_eq_dec : EqDecision release_step.
Proof. solve_decision. Defined.

Definition step_of (e : event) : option release_step :=
  match e with
  | EvRcuReplace _ _ _ | EvKsPut _ | EvKsCallRcu _ | EvCryptoMutexDestroy => Some RelCrypto
  | EvBindReset => Some RelBind
  | EvTimerDelete _ _ | EvPeerCallRcu => Some RelTimers
  | EvWarn | EvRingCleanup _ _ => Some RelQueues
  | EvDevPut => Some RelDevice
  | EvPeerMutexDestroy | EvKfreePeer => Some RelFree
  | _ => None
  end.

(** The steps a trace goes through, each run of effects of one step counted
    once. *)
Fixpoint steps_from (cur : option release_step) (l : list event) : list release_step :=
  match l with
  | [] => []
  | e :: l' =>
      match step_of e with
      | None => steps_from cur l'
      | Some s =>
          if decide (cur = Some s) then steps_from cur l'
          else s :: steps_from (Some s) l'
      end
  end.

Definition release_steps (l : list event) : list release_step := steps_from None l.

(** The effects a function added to the trace. *)
Definition new_events (k k' : kernel) : list event :=
  drop (length (trace k)) (trace k').

(** The order of release steps as the specification lists them. *)
Definition spec_release_order : list release_step :=
  [RelBind; RelTimers; RelQueues; RelDevice; RelCrypto; RelFree].

(** Allocator answers: all good; the TX ring cannot be allocated; the RX
    ring cannot be allocated. *)
Definition alloc_ok : alloc_outcome :=
  {| kmalloc_peer_ok := true; tx_ring_init_ret := 0; rx_ring_init_ret := 0 |}.

Definition alloc_tx_fails : alloc_outcome :=
  {| kmalloc_peer_ok := true; tx_ring_init_ret := neg_errno ENOMEM;
     rx_ring_init_ret := 0 |}.

Definition alloc_rx_fails : alloc_outcome :=
  {| kmalloc_peer_ok := true; tx_ring_init_ret := 0;
     rx_ring_init_ret := neg_errno ENOMEM |}.

(** The peer [ovpn_peer_new] hands out. *)
Definition peer_fresh : ovpn_peer :=
  {| status := OVPN_STATUS_ACTIVE; halt := false; bind := None;
     crypto := ovpn_crypto_state_init; refcount := 1%N;
     tx_ring := []; rx_ring := [];
     keepalive_xmit := ovpn_timer_init; keepalive_expire := ovpn_timer_init |}.

(** The crypto state and the kernel once K1 sits in the primary slot, as
    scenario S1 leaves them (with an empty trace to start from). *)
Definition cs_K1 : ovpn_crypto_state :=
  {| cs_primary := Some 0%N; cs_secondary := None; cs_ops := Some ovpn_aead_ops |}.

Definition kernel_K1 : kernel :=
  {| ks_heap := {[ 0%N := set_ks_remote_peer_id 2 (aead_key_slot K1) ]};
     ks_rcu := []; kmem := [KRing RX_RING; KRing TX_RING; KPeer];
     dev_refcnt := 2%N; peer_rcu := 0%nat; trace := [] |}.

(** A halted peer with K1 installed whose last reference is gone, as the
    release routine finds it. *)
Definition peer_dead : ovpn_peer :=
  {| status := OVPN_STATUS_ACTIVE; halt := true; bind := Some 5%N;
     crypto := cs_K1; refcount := 0%N;
     tx_ring := []; rx_ring := [];
     keepalive_xmit := ovpn_timer_init; keepalive_expire := ovpn_timer_init |}.

(** A peer with a pending keepalive timer that holds one of two references. *)
Definition peer_xmit_armed : ovpn_peer :=
  {| status := OVPN_STATUS_ACTIVE; halt := false; bind := None;
     crypto := ovpn_crypto_state_init; refcount := 2%N;
     tx_ring := []; rx_ring := [];
     keepalive_xmit := {| period := 1%N; pending := true |};
     keepalive_expire := ovpn_timer_init |}.




(** ** The rest of crypto.c and peer.c *)

Section Overhead.

(** The AEAD family's [encap_overhead] operation ([ovpn_aead_ops], aead.c):
    the bytes the cipher adds to a packet, a function of the slot. *)
Variable aead_encap_overhead : ovpn_crypto_key_slot -> Z.

Definition ops_encap_overhead (o : ovpn_crypto_ops)
  : option (ovpn_crypto_key_slot -> Z) :=
  match o with
  | ovpn_aead_ops => Some aead_encap_overhead
  | ovpn_chm_ops => None
  end.

(** [ovpn_crypto_encap_overhead]; [None] when the primary pointer dangles or
    the slot's table has no implementation. *)
Definition ovpn_crypto_encap_overhead (cs : ovpn_crypto_state) (k : kernel)
  : option Z :=
  match cs_primary cs with
  | None => Some (neg_errno ENOENT)
  | Some a =>
      match ks_heap k !! a with
      | None => None
      | Some ks =>
          match ops_encap_overhead (ks_ops ks) with
          | Some encap_overhead => Some (encap_overhead ks)
          | None => None
          end
      end
  end.

End Overhead.

(** [ovpn_peer_get]: [ovpn->peer] is the tunnel's RCU pointer to its peer
    object.  The result says whether a peer pointer (rather than [NULL]) is
    returned, and gives the peer object as the call leaves it. *)
Definition ovpn_peer_get (ovpn_peer_ptr : option ovpn_peer) : bool * option ovpn_peer :=
  match ovpn_peer_ptr with
  | None => (false, None)
  | Some peer =>
      let '(ok, held) := ovpn_peer_hold peer in
      if ok then (true, Some held) else (false, Some peer)
  end.

(** Control-path operations on one crypto state, and their effect in
    sequence.  A run stops with [None] where [reset] does. *)
Inductive crypto_op :=
  | OpSelectFamily (pkr : ovpn_peer_key_reset)
  | OpReset (pkr : ovpn_peer_key_reset)
  | OpDeleteSlot (slot : ovpn_key_slot)
  | OpGracePeriod.

Definition crypto_step (aead_setup : ovpn_key_config -> option errno)
    (op : crypto_op) (st : ovpn_crypto_state * kernel)
  : option (ovpn_crypto_state * kernel) :=
  match op with
  | OpSelectFamily pkr =>
      Some (snd (ovpn_crypto_state_select_family (fst st) pkr), snd st)
  | OpReset pkr =>
      match ovpn_crypto_state_reset aead_setup (fst st) pkr (snd st) with
      | Some (_, cs, k) => Some (cs, k)
      | None => None
      end
  | OpDeleteSlot slot => Some (ovpn_crypto_key_slot_delete (fst st) slot (snd st))
  | OpGracePeriod => Some (fst st, rcu_grace_period (snd st))
  end.

Fixpoint crypto_run (aead_setup : ovpn_key_config -> option errno)
    (ops : list crypto_op) (st : ovpn_crypto_state * kernel)
  : option (ovpn_crypto_state * kernel) :=
  match ops with
  | [] => Some st
  | op :: ops' =>
      match crypto_step aead_setup op st with
      | Some st' => crypto_run aead_setup ops' st'
      | None => None
      end
  end.

(** A slot pointer is live: it is null, or it points to a slot of the heap
    that still has a reference. *)
Definition slot_live (k : kernel) (p : option N) : Prop :=
  match p with
  | None => True
  | Some a => exists ks, ks_heap k !! a = Some ks /\ (1 <= ks_refcount ks)%N
  end.

(** The crypto state owns its slots: both pointers are live and distinct,
    and what waits for its destructor has no reference left. *)
Definition crypto_wf (cs : ovpn_crypto_state) (k : kernel) : Prop :=
  slot_live k (cs_primary cs)
  /\ slot_live k (cs_secondary cs)
  /\ (forall a, cs_primary cs = Some a -> cs_secondary cs <> Some a)
  /\ (forall a, a ∈ ks_rcu k ->
        exists ks, ks_heap k !! a = Some ks /\ ks_refcount ks = 0%N).

(** The number of warnings in a list of effects. *)
Fixpoint warnings (l : list event) : nat :=
  match l with
  | [] => 0
  | EvWarn :: l' => S (warnings l')
  | _ :: l' => warnings l'
  end.

(** A request that installs K1 in the secondary slot. *)
Definition K1_secondary : ovpn_peer_key_reset :=
  {| pkr_remote_peer_id := 2%N; pkr_slot := OVPN_KEY_SLOT_SECONDARY;
     pkr_crypto_family := OVPN_CRYPTO_FAMILY_AEAD; pkr_key := K1 |}.

(** A cipher overhead of 20 bytes for every slot. *)
Definition overhead_20 : ovpn_crypto_key_slot -> Z := fun _ => 20.

(** A peer with two packets left in its TX ring. *)
Definition peer_tx_backlog : ovpn_peer :=
  {| status := OVPN_STATUS_ACTIVE; halt := true; bind := None;
     crypto := ovpn_crypto_state_init; refcount := 0%N;
     tx_ring := [7%N; 8%N]; rx_ring := [];
     keepalive_xmit := ovpn_timer_init; keepalive_expire := ovpn_timer_init |}.

(** A crypto state with one slot pointer replaced. *)
Definition set_slot_ptr (s : ovpn_key_slot) (p : option N) (cs : ovpn_crypto_state)
  : ovpn_crypto_state :=
  match s with
  | OVPN_KEY_SLOT_PRIMARY =>
      {| cs_primary := p; cs_secondary := cs_secondary cs; cs_ops := cs_ops cs |}
  | OVPN_KEY_SLOT_SECONDARY =>
      {| cs_primary := cs_primary cs; cs_secondary := p; cs_ops := cs_ops cs |}
  | OVPN_KEY_SLOT_raw _ => cs
  end.

(** The kernel once [reset] has built a slot, stamped it and stored its
    address in the addressed slot, before the old key is put. *)
Definition kernel_after_install (cs : ovpn_crypto_state) (pkr : ovpn_peer_key_reset)
    (k : kernel) : kernel :=
  let new := fresh (dom (ks_heap k)) in
  {| ks_heap := <[new := set_ks_remote_peer_id (pkr_remote_peer_id pkr)
                           (aead_key_slot (pkr_key pkr))]> (ks_heap k);
     ks_rcu := ks_rcu k;
     kmem := kmem k; dev_refcnt := dev_refcnt k; peer_rcu := peer_rcu k;
     trace := trace k ++ [EvKsNew new;
                          EvKsSetRemotePeerId new (pkr_remote_peer_id pkr);
                          EvRcuReplace (pkr_slot pkr) (Some new)
                            (slot_ptr (pkr_slot pkr) cs)] |}.
(** ** Properties of crypto.c *)

Lemma neg_errno_nonzero e : neg_errno e <> 0.
Proof. destruct e; discriminate. Qed.

Lemma neg_errno_inj e1 e2 : neg_errno e1 = neg_errno e2 -> e1 = e2.
Proof. destruct e1, e2; (reflexivity || discriminate). Qed.

Lemma select_family_table pkr :
  ovpn_crypto_select_family pkr = None
  \/ (pkr_crypto_family pkr = OVPN_CRYPTO_FAMILY_AEAD
      /\ ovpn_crypto_select_family pkr = Some ovpn_aead_ops).
Proof.
  unfold ovpn_crypto_select_family. destruct (pkr_crypto_family pkr); auto.
Qed.

Lemma select_family_success cs pkr cs1 :
  ovpn_crypto_state_select_family cs pkr = (0, cs1) ->
  pkr_crypto_family pkr = OVPN_CRYPTO_FAMILY_AEAD
  /\ cs_ops cs1 = Some ovpn_aead_ops
  /\ cs_primary cs1 = cs_primary cs /\ cs_secondary cs1 = cs_secondary cs.
Proof.
  unfold ovpn_crypto_state_select_family.
  destruct (select_family_table pkr) as [-> | [Hf ->]]; [discriminate |].
  destruct (cs_ops cs) as [ops |].
  - destruct (decide (ops = ovpn_aead_ops)); [| discriminate].
    intros [= <-]. auto.
  - intros [= <-]. auto.
Qed.

Lemma aead_new_rejects_other_family aead_setup kc k :
  ovpn_keys_familiy_get kc <> OVPN_CRYPTO_FAMILY_AEAD ->
  ovpn_aead_crypto_key_slot_new aead_setup kc k = (ERR_PTR EOPNOTSUPP, k).
Proof.
  unfold ovpn_keys_familiy_get, ovpn_aead_crypto_key_slot_new.
  destruct (kc_cipher_alg kc); intros H; [contradiction | reflexivity | reflexivity].
Qed.

(** C1: once [select_family(AEAD)] has succeeded, a [reset] whose KeyConfig
    maps to another family fails with "unsupported" (-EOPNOTSUPP) and
    returns the crypto state, both slots and the bound ops, as it was; the
    kernel's slot heap is untouched as well. *)
Theorem reset_other_family_unsupported
    (aead_setup : ovpn_key_config -> option errno)
    (cs cs1 : ovpn_crypto_state) (sel pkr : ovpn_peer_key_reset) (k : kernel) :
  pkr_crypto_family sel = OVPN_CRYPTO_FAMILY_AEAD ->
  ovpn_crypto_state_select_family cs sel = (0, cs1) ->
  ovpn_keys_familiy_get (pkr_key pkr) <> OVPN_CRYPTO_FAMILY_AEAD ->
  ovpn_crypto_state_reset aead_setup cs1 pkr k = Some (neg_errno EOPNOTSUPP, cs1, k).
Proof.
  intros _ Hsel Hfam.
  apply select_family_success in Hsel as (_ & Hops & _).
  unfold ovpn_crypto_state_reset, ovpn_ks_new. rewrite Hops. simpl.
  rewrite aead_new_rejects_other_family by assumption. reflexivity.
Qed.

(** Scenario S3 as an instance of C1. *)
Lemma reset_other_family_unsupported_S3 :
  ovpn_crypto_state_reset aead_accepts cs_aead S3_reset kernel0
  = Some (neg_errno EOPNOTSUPP, cs_aead, kernel0).
Proof.
  apply (reset_other_family_unsupported aead_accepts
           ovpn_crypto_state_init cs_aead S1_select S3_reset kernel0).
  - reflexivity.
  - reflexivity.
  - discriminate.
Defined.

(** C2, the claim as stated fails: with AEAD bound, selecting the recognised
    family CBC-HMAC is answered with "unsupported" (-EOPNOTSUPP), not with
    "family-changed" (-EINVAL). *)
Lemma select_cbc_hmac_on_bound_state_is_unsupported :
  ovpn_crypto_state_select_family ovpn_crypto_state_init S1_select = (0, cs_aead)
  /\ spec_recognised_family (pkr_crypto_family select_cbc_hmac)
  /\ pkr_crypto_family select_cbc_hmac <> pkr_crypto_family S1_select
  /\ ovpn_crypto_state_select_family cs_aead select_cbc_hmac
     = (neg_errno EOPNOTSUPP, cs_aead)
  /\ neg_errno EOPNOTSUPP <> neg_errno EINVAL.
Proof.
  repeat split; try reflexivity; try discriminate.
  right. reflexivity.
Qed.

(** C2, amended: [select_family] with any family but AEAD (undefined,
    CBC-HMAC or unknown) fails with "unsupported" whatever is bound; after a
    successful [select_family(F)], selecting [F] again succeeds and leaves
    the state as it is; "family-changed" (-EINVAL) is the answer when the
    requested family has a table (AEAD) and the state is bound to another
    table.  No failure modifies the state. *)
Theorem select_family_contract (cs : ovpn_crypto_state) (pkr : ovpn_peer_key_reset) :
  (pkr_crypto_family pkr <> OVPN_CRYPTO_FAMILY_AEAD ->
     ovpn_crypto_state_select_family cs pkr = (neg_errno EOPNOTSUPP, cs))
  /\ (forall cs1, ovpn_crypto_state_select_family cs pkr = (0, cs1) ->
        forall pkr', pkr_crypto_family pkr' = pkr_crypto_family pkr ->
          ovpn_crypto_state_select_family cs1 pkr' = (0, cs1))
  /\ (pkr_crypto_family pkr = OVPN_CRYPTO_FAMILY_AEAD ->
        forall ops, cs_ops cs = Some ops -> ops <> ovpn_aead_ops ->
          ovpn_crypto_state_select_family cs pkr = (neg_errno EINVAL, cs)).
Proof.
  split; [| split].
  - intros Hf. unfold ovpn_crypto_state_select_family.
    destruct (select_family_table pkr) as [-> | [Hf' _]]; [reflexivity | contradiction].
  - intros cs1 H pkr' Hf'.
    apply select_family_success in H as (Hf & Hops & _).
    unfold ovpn_crypto_state_select_family, ovpn_crypto_select_family.
    rewrite Hf', Hf, Hops.
    destruct (decide (ovpn_aead_ops = ovpn_aead_ops)); [| contradiction].
    destruct cs1; simpl in *; subst; reflexivity.
  - intros Hf ops Hops Hne.
    unfold ovpn_crypto_state_select_family, ovpn_crypto_select_family.
    rewrite Hf, Hops.
    destruct (decide (ops = ovpn_aead_ops)); [contradiction | reflexivity].
Qed.

(** A state bound to another table refuses the AEAD family. *)
Lemma select_family_contract_foreign_table :
  ovpn_crypto_state_select_family cs_foreign S1_select = (neg_errno EINVAL, cs_foreign).
Proof.
  apply (proj2 (proj2 (select_family_contract cs_foreign S1_select))
           eq_refl ovpn_chm_ops eq_refl).
  discriminate.
Defined.

(** The only table [select_family] ever binds is the AEAD one. *)
Lemma select_family_binds_aead cs pkr r cs1 :
  ovpn_crypto_state_select_family cs pkr = (r, cs1) ->
  cs_ops cs1 = cs_ops cs \/ cs_ops cs1 = Some ovpn_aead_ops.
Proof.
  unfold ovpn_crypto_state_select_family.
  destruct (select_family_table pkr) as [-> | [_ ->]].
  - intros [= _ <-]. auto.
  - destruct (cs_ops cs) as [ops |] eqn:E.
    + destruct (decide (ops = ovpn_aead_ops)); intros [= _ <-]; simpl; auto.
    + intros [= _ <-]. simpl. auto.
Qed.

(** *** What [reset] does, case by case *)

Lemma fresh_slot_unused (h : gmap N ovpn_crypto_key_slot) : h !! fresh (dom h) = None.
Proof. apply not_elem_of_dom, is_fresh. Qed.

Lemma aead_new_cases aead_setup kc k :
  (exists e, ovpn_aead_crypto_key_slot_new aead_setup kc k = (ERR_PTR e, k))
  \/ ovpn_aead_crypto_key_slot_new aead_setup kc k
     = (Ptr (fresh (dom (ks_heap k))),
        log (EvKsNew (fresh (dom (ks_heap k))))
          (set_ks_heap (<[fresh (dom (ks_heap k)) := aead_key_slot kc]> (ks_heap k)) k)).
Proof.
  unfold ovpn_aead_crypto_key_slot_new.
  destruct (kc_cipher_alg kc); eauto.
  destruct (aead_setup kc); eauto.
Qed.

Lemma reset_raw_slot aead_setup cs pkr k v :
  cs_ops cs = Some ovpn_aead_ops ->
  pkr_slot pkr = OVPN_KEY_SLOT_raw v ->
  (exists e, ovpn_aead_crypto_key_slot_new aead_setup (pkr_key pkr) k = (ERR_PTR e, k)
             /\ ovpn_crypto_state_reset aead_setup cs pkr k = Some (neg_errno e, cs, k))
  \/ (ovpn_aead_crypto_key_slot_new aead_setup (pkr_key pkr) k
        = (Ptr (fresh (dom (ks_heap k))),
           log (EvKsNew (fresh (dom (ks_heap k))))
             (set_ks_heap (<[fresh (dom (ks_heap k)) := aead_key_slot (pkr_key pkr)]>
                             (ks_heap k)) k))
      /\ ovpn_crypto_state_reset aead_setup cs pkr k
         = Some (neg_errno EINVAL, cs,
                 kernel_after_dropped_slot k (pkr_key pkr) (pkr_remote_peer_id pkr))).
Proof.
  intros Hops Hslot.
  unfold ovpn_crypto_state_reset, ovpn_ks_new. rewrite Hops, Hslot. simpl.
  destruct (aead_new_cases aead_setup (pkr_key pkr) k) as [[e He] | Hnew].
  - left. exists e. rewrite He. auto.
  - right. split; [exact Hnew |]. rewrite Hnew.
    unfold kernel_after_dropped_slot.
    generalize (fresh (dom (ks_heap k))). intros new.
    unfold ovpn_crypto_key_slot_put, log, set_ks_heap. simpl.
    rewrite alter_insert_eq, lookup_insert_eq. simpl.
    unfold ovpn_crypto_key_slot_release, log, set_ks_rcu, set_ks_heap. simpl.
    rewrite insert_insert_eq, <- !app_assoc. reflexivity.
Qed.

(** C10: [reset] looks at the slot identifier only after it has built the
    new KeySlot.  With an invalid identifier, a failed construction returns
    the construction error, state and kernel untouched; a successful
    construction is followed by the release of the fresh slot (built,
    stamped, put, queued for destruction, in that order) and the answer
    "invalid-argument" (-EINVAL), with the crypto state untouched. *)
Theorem reset_checks_slot_after_build
    (aead_setup : ovpn_key_config -> option errno)
    (cs : ovpn_crypto_state) (pkr : ovpn_peer_key_reset) (k : kernel) (v : Z) :
  cs_ops cs = Some ovpn_aead_ops ->
  pkr_slot pkr = OVPN_KEY_SLOT_raw v ->
  match ovpn_ks_new aead_setup (cs_ops cs) (pkr_key pkr) k with
  | Some (ERR_PTR e, _) =>
      ovpn_crypto_state_reset aead_setup cs pkr k = Some (neg_errno e, cs, k)
  | Some (Ptr new, _) =>
      exists k',
        ovpn_crypto_state_reset aead_setup cs pkr k = Some (neg_errno EINVAL, cs, k')
        /\ trace k' = trace k ++ [EvKsNew new;
                                  EvKsSetRemotePeerId new (pkr_remote_peer_id pkr);
                                  EvKsPut new; EvKsCallRcu new]
        /\ ks_heap k !! new = None
        /\ (exists ks, ks_heap k' !! new = Some ks /\ ks_refcount ks = 0%N)
        /\ ks_rcu k' = ks_rcu k ++ [new]
        /\ (forall a, a <> new -> ks_heap k' !! a = ks_heap k !! a)
  | _ => False
  end.
Proof.
  intros Hops Hslot.
  destruct (reset_raw_slot aead_setup cs pkr k v Hops Hslot)
    as [(e & Hnew & Hreset) | (Hnew & Hreset)];
    unfold ovpn_ks_new; rewrite Hops; simpl; rewrite Hnew.
  - exact Hreset.
  - eexists. split; [exact Hreset |].
    unfold kernel_after_dropped_slot. cbn.
    repeat split.
    + apply fresh_slot_unused.
    + eexists. rewrite lookup_insert_eq. split; reflexivity.
    + intros a Ha. rewrite lookup_insert_ne by congruence. reflexivity.
Qed.

(** C10 on a request with slot value 7 and a key the cipher accepts. *)
Lemma reset_checks_slot_after_build_built :
  exists k',
    ovpn_crypto_state_reset aead_accepts cs_aead bad_slot_reset kernel0
    = Some (neg_errno EINVAL, cs_aead, k')
    /\ trace k' = [EvKsNew 0%N; EvKsSetRemotePeerId 0%N 2%N; EvKsPut 0%N; EvKsCallRcu 0%N].
Proof.
  destruct (reset_checks_slot_after_build aead_accepts cs_aead bad_slot_reset kernel0 7
              eq_refl eq_refl) as (k' & Hreset & Htrace & _).
  exists k'. split; [exact Hreset | exact Htrace].
Defined.

(** *** The grace period, seen on the slot heap *)

Lemma destroy_rcu_heap a k :
  ks_heap (ovpn_ks_destroy_rcu a k) = destroy_in_heap (ks_heap k) a.
Proof.
  unfold ovpn_ks_destroy_rcu, destroy_in_heap.
  destruct (ks_heap k !! a) as [ks |]; [| reflexivity].
  destruct (ks_ops ks); reflexivity.
Qed.

Lemma foldl_destroy_heap l k :
  ks_heap (foldl (fun k a => ovpn_ks_destroy_rcu a k) k l)
  = foldl destroy_in_heap (ks_heap k) l.
Proof.
  revert k. induction l as [| a l IH]; intros k; simpl; [reflexivity |].
  rewrite IH, destroy_rcu_heap. reflexivity.
Qed.

Lemma grace_period_heap k :
  ks_heap (rcu_grace_period k) = foldl destroy_in_heap (ks_heap k) (ks_rcu k).
Proof. unfold rcu_grace_period. rewrite foldl_destroy_heap. reflexivity. Qed.

Lemma destroy_in_heap_absent h a b :
  h !! a = None -> destroy_in_heap h b !! a = None.
Proof.
  intros Ha. unfold destroy_in_heap.
  destruct (h !! b) as [ks |]; [| exact Ha].
  destruct (ks_ops ks); [| exact Ha].
  destruct (decide (b = a)) as [-> | Hne].
  - apply lookup_delete_eq.
  - rewrite lookup_delete_ne by exact Hne. exact Ha.
Qed.

Lemma destroy_absent_last l : forall h a,
  h !! a = None ->
  foldl destroy_in_heap h (l ++ [a]) = foldl destroy_in_heap h l.
Proof.
  induction l as [| b l IH]; intros h a Ha; simpl.
  - unfold destroy_in_heap. rewrite Ha. reflexivity.
  - apply IH, destroy_in_heap_absent, Ha.
Qed.

(** A slot that was added with its destructor queued last is gone after the
    grace period, and the rest of the heap fares as it would have without
    it. *)
Lemma destroy_added_last l : forall h a ks,
  h !! a = None -> ks_ops ks = ovpn_aead_ops ->
  foldl destroy_in_heap (<[a := ks]> h) (l ++ [a]) = foldl destroy_in_heap h l.
Proof.
  induction l as [| b l IH]; intros h a ks Ha Hops; simpl.
  - unfold destroy_in_heap. rewrite lookup_insert_eq, Hops.
    apply delete_insert_id, Ha.
  - destruct (decide (b = a)) as [-> | Hne].
    + replace (destroy_in_heap (<[a := ks]> h) a) with h.
      * replace (destroy_in_heap h a) with h
          by (unfold destroy_in_heap; rewrite Ha; reflexivity).
        apply destroy_absent_last, Ha.
      * unfold destroy_in_heap. rewrite lookup_insert_eq, Hops.
        symmetry. apply delete_insert_id, Ha.
    + unfold destroy_in_heap at 2 4.
      rewrite lookup_insert_ne by congruence.
      destruct (h !! b) as [ks' |] eqn:Hb; [| apply IH; assumption].
      destruct (ks_ops ks'); [| apply IH; assumption].
      rewrite delete_insert_ne by congruence.
      apply IH; [| assumption].
      rewrite lookup_delete_ne by exact Hne. exact Ha.
Qed.

(** C3: [reset] is all-or-nothing.  Whenever it returns an error, the crypto
    state is the one it was given (both slots, and the family), every key
    slot that existed is untouched, anything the call allocated is left
    without a reference and queued for destruction, and once the grace period
    is over the slot heap is what it would have been without the call. *)
Theorem reset_all_or_nothing
    (aead_setup : ovpn_key_config -> option errno)
    (cs cs' : ovpn_crypto_state) (pkr : ovpn_peer_key_reset) (k k' : kernel) (r : Z) :
  ovpn_crypto_state_reset aead_setup cs pkr k = Some (r, cs', k') ->
  r <> 0 ->
  cs' = cs
  /\ (forall a, is_Some (ks_heap k !! a) -> ks_heap k' !! a = ks_heap k !! a)
  /\ (forall a ks, ks_heap k' !! a = Some ks -> ks_heap k !! a = None ->
        ks_refcount ks = 0%N /\ a ∈ ks_rcu k')
  /\ ks_heap (rcu_grace_period k') = ks_heap (rcu_grace_period k).
Proof.
  intros Hreset Hr.
  assert (Hops : cs_ops cs = Some ovpn_aead_ops).
  { unfold ovpn_crypto_state_reset, ovpn_ks_new in Hreset.
    destruct (cs_ops cs) as [[] |]; (reflexivity || discriminate). }
  assert (Hcases :
    (exists e, r = neg_errno e /\ cs' = cs /\ k' = k)
    \/ (r = neg_errno EINVAL /\ cs' = cs
        /\ k' = kernel_after_dropped_slot k (pkr_key pkr) (pkr_remote_peer_id pkr))).
  { destruct (pkr_slot pkr) as [| | v] eqn:Hslot.
    3: { destruct (reset_raw_slot aead_setup cs pkr k v Hops Hslot)
           as [(e & _ & H) | (_ & H)]; rewrite H in Hreset;
           injection Hreset as <- <- <-; eauto. }
    all: unfold ovpn_crypto_state_reset, ovpn_ks_new in Hreset;
      rewrite Hops, Hslot in Hreset; simpl in Hreset;
      destruct (aead_new_cases aead_setup (pkr_key pkr) k) as [[e He] | Hnew];
      [ rewrite He in Hreset; injection Hreset as <- <- <-; eauto
      | rewrite Hnew in Hreset; injection Hreset as <- _ _; contradiction ]. }
  destruct Hcases as [(e & -> & -> & ->) | (-> & -> & ->)].
  - split; [reflexivity |]. split; [reflexivity |]. split; [| reflexivity].
    intros a ks H1 H2. congruence.
  - unfold kernel_after_dropped_slot.
    split; [reflexivity |]. split; [| split].
    + intros a [ks Ha]. cbn.
      rewrite lookup_insert_ne; [reflexivity |].
      intros <-. rewrite fresh_slot_unused in Ha. discriminate.
    + intros a ks. cbn. intros H1 H2.
      destruct (decide (fresh (dom (ks_heap k)) = a)) as [<- | Hne].
      * rewrite lookup_insert_eq in H1. injection H1 as <-.
        split; [reflexivity |]. apply elem_of_app. right. apply list_elem_of_singleton.
        reflexivity.
      * rewrite lookup_insert_ne in H1 by exact Hne. congruence.
    + rewrite !grace_period_heap. cbn.
      apply destroy_added_last; [apply fresh_slot_unused | reflexivity].
Qed.

(** C3 on the same request: nothing of the failed call outlives the grace
    period. *)
Lemma reset_all_or_nothing_bad_slot :
  exists k',
    ovpn_crypto_state_reset aead_accepts cs_aead bad_slot_reset kernel0
    = Some (neg_errno EINVAL, cs_aead, k')
    /\ ks_heap (rcu_grace_period k') = ks_heap (rcu_grace_period kernel0).
Proof.
  eexists. split; [reflexivity |].
  eapply (reset_all_or_nothing aead_accepts cs_aead cs_aead bad_slot_reset kernel0 _
            (neg_errno EINVAL)).
  - reflexivity.
  - discriminate.
Defined.

(** *** Dropping a reference touches counts only *)

Lemma set_ks_refcount_same ks : set_ks_refcount (ks_refcount ks) ks = ks.
Proof. destruct ks; reflexivity. Qed.

Lemma put_trace a k :
  exists evs, trace (ovpn_crypto_key_slot_put a k) = trace k ++ EvKsPut a :: evs.
Proof.
  unfold ovpn_crypto_key_slot_put. simpl.
  destruct (ks_heap k !! a) as [ks |]; simpl.
  - destruct (kref_put (ks_refcount ks)) as [n []]; simpl.
    + exists [EvKsCallRcu a]. rewrite <- app_assoc. reflexivity.
    + exists []. reflexivity.
  - exists []. reflexivity.
Qed.

Lemma put_lookup a k b ks :
  ks_heap k !! b = Some ks ->
  exists n, ks_heap (ovpn_crypto_key_slot_put a k) !! b = Some (set_ks_refcount n ks).
Proof.
  intros Hb. unfold ovpn_crypto_key_slot_put. simpl.
  destruct (ks_heap k !! a) as [ks' |] eqn:Ha; simpl.
  - destruct (kref_put (ks_refcount ks')) as [n rel].
    assert (H : exists m, <[a := set_ks_refcount n ks']> (ks_heap k) !! b
                          = Some (set_ks_refcount m ks)).
    { destruct (decide (a = b)) as [-> | Hne].
      - rewrite lookup_insert_eq. exists n. congruence.
      - rewrite lookup_insert_ne by exact Hne.
        exists (ks_refcount ks). rewrite set_ks_refcount_same. exact Hb. }
    destruct rel; exact H.
  - exists (ks_refcount ks). rewrite set_ks_refcount_same. exact Hb.
Qed.

(** C6: after a successful [reset] the addressed slot points to the KeySlot
    just built, and that KeySlot carries the request's [remote_peer_id]; in
    the order of effects the field is written before the slot pointer is
    stored.  In scenario S1 (fresh state, [select_family(AEAD)], then
    [reset(primary, K1, remote_peer_id 2)], the cipher accepting K1) the
    lookup by key id 1 returns a slot whose [remote_peer_id] is 2. *)
Theorem reset_stamps_remote_peer_id
    (aead_setup : ovpn_key_config -> option errno)
    (cs : ovpn_crypto_state) (pkr : ovpn_peer_key_reset) (k : kernel) :
  (forall cs' k',
     ovpn_crypto_state_reset aead_setup cs pkr k = Some (0, cs', k') ->
     exists new ks l,
       slot_ptr (pkr_slot pkr) cs' = Some new
       /\ ks_heap k !! new = None
       /\ ks_heap k' !! new = Some ks
       /\ ks_remote_peer_id ks = pkr_remote_peer_id pkr
       /\ ks_key_id ks = kc_key_id (pkr_key pkr)
       /\ trace k' = trace k ++ l
       /\ before (EvKsSetRemotePeerId new (pkr_remote_peer_id pkr))
                 (EvRcuReplace (pkr_slot pkr) (Some new) (slot_ptr (pkr_slot pkr) cs)) l)
  /\ (aead_setup K1 = None ->
      ovpn_crypto_state_select_family ovpn_crypto_state_init S1_select = (0, cs_aead)
      /\ exists cs' k' a k'' ks,
           ovpn_crypto_state_reset aead_setup cs_aead S1_select kernel0 = Some (0, cs', k')
           /\ ovpn_crypto_key_id_to_slot cs' 1%N k' = (Some a, k'')
           /\ ks_heap k'' !! a = Some ks
           /\ ks_remote_peer_id ks = 2%N).
Proof.
  split.
  - intros cs' k' Hreset.
    assert (Hops : cs_ops cs = Some ovpn_aead_ops).
    { unfold ovpn_crypto_state_reset, ovpn_ks_new in Hreset.
      destruct (cs_ops cs) as [[] |]; (reflexivity || discriminate). }
    unfold ovpn_crypto_state_reset, ovpn_ks_new in Hreset.
    rewrite Hops in Hreset. simpl in Hreset.
    destruct (aead_new_cases aead_setup (pkr_key pkr) k) as [[e He] | Hnew].
    { rewrite He in Hreset. injection Hreset as Hr _ _.
      exfalso. exact (neg_errno_nonzero e Hr). }
    rewrite Hnew in Hreset. clear Hnew.
    pose proof (fresh_slot_unused (ks_heap k)) as Hfresh.
    revert Hreset Hfresh. generalize (fresh (dom (ks_heap k))). intros new Hreset Hfresh.
    exists new.
    set (ks := set_ks_remote_peer_id (pkr_remote_peer_id pkr) (aead_key_slot (pkr_key pkr))).
    assert (Hstore : forall cs1 k1,
      Some (0, cs1,
            match slot_ptr (pkr_slot pkr) cs with
            | Some o => ovpn_crypto_key_slot_put o k1
            | None => k1
            end) = Some (0, cs', k') ->
      slot_ptr (pkr_slot pkr) cs1 = Some new ->
      ks_heap k1 !! new = Some ks ->
      trace k1 = trace k ++ [EvKsNew new;
                             EvKsSetRemotePeerId new (pkr_remote_peer_id pkr);
                             EvRcuReplace (pkr_slot pkr) (Some new)
                               (slot_ptr (pkr_slot pkr) cs)] ->
      exists ks' l,
        slot_ptr (pkr_slot pkr) cs' = Some new
        /\ ks_heap k !! new = None
        /\ ks_heap k' !! new = Some ks'
        /\ ks_remote_peer_id ks' = pkr_remote_peer_id pkr
        /\ ks_key_id ks' = kc_key_id (pkr_key pkr)
        /\ trace k' = trace k ++ l
        /\ before (EvKsSetRemotePeerId new (pkr_remote_peer_id pkr))
                  (EvRcuReplace (pkr_slot pkr) (Some new) (slot_ptr (pkr_slot pkr) cs)) l).
    { intros cs1 k1 Heq Hptr Hheap Htrace.
      injection Heq as <- <-.
      destruct (slot_ptr (pkr_slot pkr) cs) as [o |].
      - destruct (put_lookup o k1 new ks Hheap) as [n Hn].
        destruct (put_trace o k1) as [evs Hevs].
        exists (set_ks_refcount n ks), ([EvKsNew new;
                 EvKsSetRemotePeerId new (pkr_remote_peer_id pkr);
                 EvRcuReplace (pkr_slot pkr) (Some new) (Some o)] ++ EvKsPut o :: evs).
        repeat split; try assumption; try reflexivity.
        + rewrite Hevs, Htrace, <- app_assoc. reflexivity.
        + exists [EvKsNew new], [], (EvKsPut o :: evs). reflexivity.
      - exists ks, [EvKsNew new;
                 EvKsSetRemotePeerId new (pkr_remote_peer_id pkr);
                 EvRcuReplace (pkr_slot pkr) (Some new) None].
        repeat split; try assumption; try reflexivity.
        exists [EvKsNew new], [], []. reflexivity. }
    destruct (pkr_slot pkr) as [| | v] eqn:Hslot; simpl in Hreset.
    + eapply Hstore; [exact Hreset | reflexivity | |].
      * simpl. rewrite alter_insert_eq, lookup_insert_eq. reflexivity.
      * simpl. rewrite <- !app_assoc. reflexivity.
    + eapply Hstore; [exact Hreset | reflexivity | |].
      * simpl. rewrite alter_insert_eq, lookup_insert_eq. reflexivity.
      * simpl. rewrite <- !app_assoc. reflexivity.
    + injection Hreset as Hr _ _. discriminate.
  - intros Haccept. split; [reflexivity |].
    assert (Hnew : ovpn_aead_crypto_key_slot_new aead_setup K1 kernel0
                   = (Ptr 0%N, log (EvKsNew 0%N)
                                 (set_ks_heap (<[0%N := aead_key_slot K1]> ∅) kernel0))).
    { unfold ovpn_aead_crypto_key_slot_new.
      change (kc_cipher_alg K1) with OVPN_CIPHER_ALG_AES_GCM. cbv iota.
      rewrite Haccept. reflexivity. }
    unfold ovpn_crypto_state_reset.
    change (ovpn_ks_new aead_setup (cs_ops cs_aead) (pkr_key S1_select) kernel0)
      with (Some (ovpn_aead_crypto_key_slot_new aead_setup K1 kernel0)).
    rewrite Hnew.
    do 5 eexists. split; [reflexivity |].
    split; [vm_compute; reflexivity |].
    split; vm_compute; reflexivity.
Qed.

(** Scenario S1 leaves K1, stamped with peer id 2, in the primary slot. *)
Lemma reset_S1_state :
  exists k',
    ovpn_crypto_state_reset aead_accepts cs_aead S1_select kernel0 = Some (0, cs_K1, k')
    /\ ks_heap k' = ks_heap kernel_K1.
Proof. eexists. split; reflexivity. Qed.

(** Scenario S1 with a cipher that accepts every key. *)
Lemma reset_stamps_remote_peer_id_S1 :
  exists cs' k' a k'' ks,
    ovpn_crypto_state_reset aead_accepts cs_aead S1_select kernel0 = Some (0, cs', k')
    /\ ovpn_crypto_key_id_to_slot cs' 1%N k' = (Some a, k'')
    /\ ks_heap k'' !! a = Some ks
    /\ ks_remote_peer_id ks = 2%N.
Proof.
  exact (proj2 (proj2 (reset_stamps_remote_peer_id aead_accepts cs_aead S1_select kernel0)
                  eq_refl)).
Defined.

(** ** Properties of peer.c *)

Lemma kref_put_pos n :
  (1 <= n)%N -> kref_put n = ((n - 1)%N, N.eqb n 1).
Proof.
  intros H. unfold kref_put. destruct n as [| p]; [lia |].
  f_equal. lia.
Qed.

Lemma peer_delete_halted peer k :
  halt peer = true -> ovpn_peer_delete peer k = (peer, k).
Proof. intros H. unfold ovpn_peer_delete. rewrite H. reflexivity. Qed.

(** C7: [peer_delete] is idempotent.  The first call on a peer that is not
    halted sets [halt] and drops one reference, the caller's; every later
    call changes nothing, so any number of calls (at least one) ends in the
    state the first call produced, with the count dropped exactly once. *)
Theorem peer_delete_idempotent (peer : ovpn_peer) (k : kernel) (n : nat) :
  halt peer = false ->
  (1 <= refcount peer)%N ->
  exists p1 k1,
    ovpn_peer_delete peer k = (p1, k1)
    /\ p1 = set_refcount (refcount peer - 1) (set_halt true peer)
    /\ halt p1 = true
    /\ refcount p1 = (refcount peer - 1)%N
    /\ ovpn_peer_delete p1 k1 = (p1, k1)
    /\ ovpn_peer_delete_n (S n) peer k = (p1, k1).
Proof.
  intros Hhalt Href.
  assert (Hfirst : ovpn_peer_delete peer k
                   = (set_refcount (refcount peer - 1) (set_halt true peer),
                      if N.eqb (refcount peer) 1 then ovpn_peer_release_kref k else k)).
  { unfold ovpn_peer_delete, ovpn_peer_put. rewrite Hhalt. simpl.
    rewrite kref_put_pos by exact Href. reflexivity. }
  eexists _, _. split; [exact Hfirst |].
  split; [reflexivity |]. split; [reflexivity |]. split; [reflexivity |].
  assert (Hagain : forall k1,
            ovpn_peer_delete (set_refcount (refcount peer - 1) (set_halt true peer)) k1
            = (set_refcount (refcount peer - 1) (set_halt true peer), k1)).
  { intros k1. apply peer_delete_halted. reflexivity. }
  split; [apply Hagain |].
  induction n as [| n IH].
  - exact Hfirst.
  - unfold ovpn_peer_delete_n in *. rewrite Nat.iter_succ, IH. simpl. apply Hagain.
Qed.

(** Three deletes of a fresh peer drop its single reference once. *)
Lemma peer_delete_idempotent_fresh :
  ovpn_peer_delete_n 3 peer_fresh kernel0
  = (set_refcount 0 (set_halt true peer_fresh), ovpn_peer_release_kref kernel0).
Proof.
  destruct (peer_delete_idempotent peer_fresh kernel0 2 eq_refl)
    as (p1 & k1 & Hfirst & _ & _ & _ & _ & Hn).
  - vm_compute. discriminate.
  - rewrite Hn, <- Hfirst. reflexivity.
Defined.

(** *** Timers and the reference count *)

Ltac timer_cases peer t :=
  destruct peer as [st hl bd cr [| rc] tx rx [[| xp] [|]] [[| ep] [|]]];
  destruct t; unfold ovpn_peer_timer_schedule, ovpn_peer_timer_delete,
    ovpn_timer_schedule, ovpn_timer_delete, ovpn_peer_hold, ovpn_peer_put,
    armed_timers, timer_armed; simpl.

(** A (re)schedule from the control path changes the count by the arming
    change, unless it is a pending timer that gets disarmed by a zero
    period. *)
Lemma timer_schedule_balance peer t k :
  (period (get_timer t peer) = 0%N -> pending (get_timer t peer) = false) ->
  Z.of_N (refcount (fst (ovpn_peer_timer_schedule peer t 0 k))) - Z.of_N (refcount peer)
  = armed_timers (fst (ovpn_peer_timer_schedule peer t 0 k)) - armed_timers peer.
Proof.
  timer_cases peer t; intros H; try (specialize (H eq_refl); discriminate); lia.
Qed.

(** A schedule from the control path never gives a reference back. *)
Lemma timer_schedule_never_drops peer t k :
  (refcount peer <= refcount (fst (ovpn_peer_timer_schedule peer t 0 k)))%N.
Proof. timer_cases peer t; lia. Qed.

(** A pending timer with a zero period is disarmed by the scheduler, and the
    reference count is where it was. *)
Lemma timer_schedule_zero_period peer t k :
  period (get_timer t peer) = 0%N ->
  pending (get_timer t peer) = true ->
  refcount (fst (ovpn_peer_timer_schedule peer t 0 k)) = refcount peer
  /\ armed_timers (fst (ovpn_peer_timer_schedule peer t 0 k)) = armed_timers peer - 1.
Proof.
  timer_cases peer t; intros Hz Hp; try discriminate; split; (reflexivity || lia).
Qed.

Lemma timer_schedule_kernel peer t k :
  snd (ovpn_peer_timer_schedule peer t 0 k) = k.
Proof. timer_cases peer t; reflexivity. Qed.

Lemma timer_delete_balance peer t k :
  (pending (get_timer t peer) = true -> (1 <= refcount peer)%N) ->
  Z.of_N (refcount (fst (ovpn_peer_timer_delete peer t k))) - Z.of_N (refcount peer)
  = armed_timers (fst (ovpn_peer_timer_delete peer t k)) - armed_timers peer.
Proof.
  timer_cases peer t; intros H; try specialize (H eq_refl);
    try destruct (Pos.eqb rc 1); simpl; lia.
Qed.

Lemma timer_handler_balance peer t k :
  pending (get_timer t peer) = false ->
  (1 <= refcount peer)%N ->
  Z.of_N (refcount (fst (ovpn_peer_timer_schedule peer t (-1) k))) - Z.of_N (refcount peer)
  = timer_armed t (fst (ovpn_peer_timer_schedule peer t (-1) k)) - 1.
Proof.
  timer_cases peer t; intros Hp Hr; try discriminate;
    try destruct (Pos.eqb rc 1); simpl; lia.
Qed.

Lemma set_keepalive_twice peer ping timeout k :
  ovpn_peer_set_keepalive
    (fst (ovpn_peer_set_keepalive peer ping timeout k)) ping timeout
    (snd (ovpn_peer_set_keepalive peer ping timeout k))
  = ovpn_peer_set_keepalive peer ping timeout k.
Proof.
  destruct peer as [st hl bd cr [| rc] tx rx [xp [|]] [ep [|]]];
    destruct ping, timeout; reflexivity.
Qed.

(** [ovpn_peer_set_keepalive] changes the count by the arming change as long
    as no pending timer is given a zero period. *)
Lemma set_keepalive_balance peer ping timeout k :
  (ping = 0%N -> pending (keepalive_xmit peer) = false) ->
  (timeout = 0%N -> pending (keepalive_expire peer) = false) ->
  Z.of_N (refcount (fst (ovpn_peer_set_keepalive peer ping timeout k)))
    - Z.of_N (refcount peer)
  = armed_timers (fst (ovpn_peer_set_keepalive peer ping timeout k)) - armed_timers peer.
Proof.
  destruct peer as [st hl bd cr [| rc] tx rx [xp [|]] [ep [|]]];
    destruct ping, timeout; simpl; intros Hx He;
    try (specialize (Hx eq_refl); discriminate);
    try (specialize (He eq_refl); discriminate);
    cbv - [Z.sub Pos.succ]; lia.
Qed.

(** [ovpn_peer_set_keepalive] never gives a reference back, whatever the
    periods. *)
Lemma set_keepalive_never_drops peer ping timeout k :
  (refcount peer <= refcount (fst (ovpn_peer_set_keepalive peer ping timeout k)))%N.
Proof.
  destruct peer as [st hl bd cr [| rc] tx rx [xp [|]] [ep [|]]];
    destruct ping, timeout; cbv - [N.le Pos.succ]; lia.
Qed.


(** *** Allocation failures in [ovpn_peer_new] *)

Lemma peer_new_kmalloc_failure env k :
  kmalloc_peer_ok env = false ->
  ovpn_peer_new env k = (ERR_PTR ENOMEM, k).
Proof. intros H. unfold ovpn_peer_new. rewrite H. reflexivity. Qed.

(** A ring that cannot be allocated makes [ovpn_peer_new] return [NULL],
    which is no error pointer; what was allocated before is freed again. *)
Lemma peer_new_ring_failure env k :
  kmalloc_peer_ok env = true ->
  tx_ring_init_ret env < 0 \/ rx_ring_init_ret env < 0 ->
  fst (ovpn_peer_new env k) = NULL
  /\ IS_ERR (fst (ovpn_peer_new env k)) = false
  /\ kmem (snd (ovpn_peer_new env k)) = kmem k.
Proof.
  intros Hk Hring. unfold ovpn_peer_new. rewrite Hk. simpl.
  destruct (tx_ring_init_ret env <? 0) eqn:Htx; simpl.
  - repeat split; reflexivity.
  - destruct (rx_ring_init_ret env <? 0) eqn:Hrx; simpl.
    + repeat split; reflexivity.
    + lia.
Qed.

(** C5, what the code does where the claim asks for "out-of-memory": with
    the TX ring (or the RX ring) failing with -ENOMEM, [ovpn_peer_new]
    returns [NULL]; [IS_ERR] does not hold of it, so
    [ovpn_peer_new_with_sockaddr] goes on with a null peer.  The earlier
    allocations are unwound in both cases. *)
Lemma peer_new_ring_failure_is_null :
  fst (ovpn_peer_new alloc_tx_fails kernel0) = NULL
  /\ fst (ovpn_peer_new alloc_rx_fails kernel0) = NULL
  /\ fst (ovpn_peer_new alloc_tx_fails kernel0) <> ERR_PTR ENOMEM
  /\ IS_ERR (fst (ovpn_peer_new alloc_tx_fails kernel0)) = false
  /\ kmem (snd (ovpn_peer_new alloc_tx_fails kernel0)) = kmem kernel0
  /\ kmem (snd (ovpn_peer_new alloc_rx_fails kernel0)) = kmem kernel0
  /\ ovpn_peer_new_with_sockaddr alloc_tx_fails (Ptr 1%N) kernel0 = None.
Proof. repeat split; (reflexivity || discriminate). Qed.

(** *** The order of the release routine *)

Lemma steps_from_block s l r :
  Forall (fun e => step_of e = Some s) l ->
  steps_from (Some s) (l ++ r) = steps_from (Some s) r.
Proof.
  induction 1 as [| e l He _ IH]; simpl; [reflexivity |].
  rewrite He. destruct (decide (Some s = Some s)); [exact IH | contradiction].
Qed.

Lemma steps_from_enter cur s l r :
  Forall (fun e => step_of e = Some s) l ->
  l <> [] ->
  cur <> Some s ->
  steps_from cur (l ++ r) = s :: steps_from (Some s) r.
Proof.
  intros Hl Hne Hcur. destruct Hl as [| e l He Hl]; [contradiction |].
  simpl. rewrite He.
  destruct (decide (cur = Some s)); [contradiction |].
  f_equal. apply steps_from_block, Hl.
Qed.

Lemma new_events_app k k' l : trace k' = trace k ++ l -> new_events k k' = l.
Proof. intros H. unfold new_events. rewrite H. apply drop_app_length. Qed.

Lemma put_trace_crypto a k :
  exists evs, trace (ovpn_crypto_key_slot_put a k) = trace k ++ evs
              /\ Forall (fun e => step_of e = Some RelCrypto) evs.
Proof.
  unfold ovpn_crypto_key_slot_put. simpl.
  destruct (ks_heap k !! a) as [ks |]; simpl.
  - destruct (kref_put (ks_refcount ks)) as [n []]; simpl.
    + exists [EvKsPut a; EvKsCallRcu a]. rewrite <- app_assoc.
      split; [reflexivity | repeat constructor].
    + exists [EvKsPut a]. split; [reflexivity | repeat constructor].
  - exists [EvKsPut a]. split; [reflexivity | repeat constructor].
Qed.

Lemma crypto_release_trace cs k :
  exists evs, trace (snd (ovpn_crypto_state_release cs k)) = trace k ++ evs
              /\ evs <> []
              /\ Forall (fun e => step_of e = Some RelCrypto) evs.
Proof.
  unfold ovpn_crypto_state_release.
  destruct (cs_primary cs) as [a |]; destruct (cs_secondary cs) as [b |]; simpl.
  - destruct (put_trace_crypto a (log (EvRcuReplace OVPN_KEY_SLOT_PRIMARY None (Some a)) k))
      as (e1 & H1 & F1).
    destruct (put_trace_crypto b
                (log (EvRcuReplace OVPN_KEY_SLOT_SECONDARY None (Some b))
                   (ovpn_crypto_key_slot_put a
                      (log (EvRcuReplace OVPN_KEY_SLOT_PRIMARY None (Some a)) k))))
      as (e2 & H2 & F2).
    simpl in *. rewrite H2, H1.
    exists ([EvRcuReplace OVPN_KEY_SLOT_PRIMARY None (Some a)] ++ e1
            ++ [EvRcuReplace OVPN_KEY_SLOT_SECONDARY None (Some b)] ++ e2
            ++ [EvCryptoMutexDestroy]).
    split; [rewrite <- !app_assoc; reflexivity |]. split; [discriminate |].
    repeat (apply Forall_app; split); try assumption; repeat constructor.
  - destruct (put_trace_crypto a (log (EvRcuReplace OVPN_KEY_SLOT_PRIMARY None (Some a)) k))
      as (e1 & H1 & F1).
    simpl in *. rewrite H1.
    exists ([EvRcuReplace OVPN_KEY_SLOT_PRIMARY None (Some a)] ++ e1
            ++ [EvCryptoMutexDestroy]).
    split; [rewrite <- !app_assoc; reflexivity |]. split; [discriminate |].
    repeat (apply Forall_app; split); try assumption; repeat constructor.
  - destruct (put_trace_crypto b (log (EvRcuReplace OVPN_KEY_SLOT_SECONDARY None (Some b)) k))
      as (e2 & H2 & F2).
    simpl in *. rewrite H2.
    exists ([EvRcuReplace OVPN_KEY_SLOT_SECONDARY None (Some b)] ++ e2
            ++ [EvCryptoMutexDestroy]).
    split; [rewrite <- !app_assoc; reflexivity |]. split; [discriminate |].
    repeat (apply Forall_app; split); try assumption; repeat constructor.
  - exists [EvCryptoMutexDestroy]. split; [reflexivity |]. split; [discriminate |].
    repeat constructor.
Qed.

Lemma timer_delete_trace p t k :
  exists evs,
    trace (snd (ovpn_peer_timer_delete p t k))
    = trace k ++ EvTimerDelete t (pending (get_timer t p)) :: evs
    /\ Forall (fun e => step_of e = Some RelTimers) evs
    /\ Forall (fun e => e <> EvWarn) evs
    /\ tx_ring (fst (ovpn_peer_timer_delete p t k)) = tx_ring p
    /\ rx_ring (fst (ovpn_peer_timer_delete p t k)) = rx_ring p
    /\ pending (get_timer t (fst (ovpn_peer_timer_delete p t k))) = false
    /\ (forall t', t' <> t ->
          get_timer t' (fst (ovpn_peer_timer_delete p t k)) = get_timer t' p).
Proof.
  destruct p as [st hl bd cr rc tx rx [xp xa] [ep ea]].
  unfold ovpn_peer_timer_delete, ovpn_timer_delete, ovpn_peer_put,
    ovpn_peer_release_kref.
  destruct t; simpl; [destruct xa | destruct ea]; simpl;
    try (destruct (kref_put rc) as [n []]; simpl);
    first [ exists [EvPeerCallRcu]; rewrite <- app_assoc | exists [] ];
    (split; [reflexivity |]);
    (split; [repeat constructor |]);
    (split; [repeat constructor; discriminate |]);
    (split; [reflexivity |]); (split; [reflexivity |]); (split; [reflexivity |]);
    intros [] Hne; (reflexivity || contradiction).
Qed.

Lemma timer_delete_all_trace p k :
  exists evs,
    trace (snd (ovpn_peer_timer_delete_all p k)) = trace k ++ evs
    /\ evs <> []
    /\ Forall (fun e => step_of e = Some RelTimers) evs
    /\ Forall (fun e => e <> EvWarn) evs
    /\ tx_ring (fst (ovpn_peer_timer_delete_all p k)) = tx_ring p
    /\ rx_ring (fst (ovpn_peer_timer_delete_all p k)) = rx_ring p
    /\ pending (keepalive_xmit (fst (ovpn_peer_timer_delete_all p k))) = false
    /\ pending (keepalive_expire (fst (ovpn_peer_timer_delete_all p k))) = false.
Proof.
  unfold ovpn_peer_timer_delete_all.
  destruct (timer_delete_trace p KEEPALIVE_XMIT k)
    as (e1 & H1 & F1 & W1 & Tx1 & Rx1 & P1 & O1).
  destruct (ovpn_peer_timer_delete p KEEPALIVE_XMIT k) as [p1 k1]. simpl in *.
  destruct (timer_delete_trace p1 KEEPALIVE_EXPIRE k1)
    as (e2 & H2 & F2 & W2 & Tx2 & Rx2 & P2 & O2).
  exists (EvTimerDelete KEEPALIVE_XMIT (pending (keepalive_xmit p)) :: e1
          ++ EvTimerDelete KEEPALIVE_EXPIRE (pending (keepalive_expire p1)) :: e2).
  split; [| split; [discriminate |]].
  - rewrite H2, H1. rewrite <- app_assoc. reflexivity.
  - split; [| split; [| split; [| split; [| split]]]].
    + constructor; [reflexivity |]. apply Forall_app. split; [assumption |].
      constructor; [reflexivity | assumption].
    + constructor; [discriminate |]. apply Forall_app. split; [assumption |].
      constructor; [discriminate | assumption].
    + congruence.
    + congruence.
    + specialize (O2 KEEPALIVE_XMIT). simpl in O2. rewrite O2 by discriminate. exact P1.
    + exact P2.
Qed.

Lemma peer_release_trace p k :
  exists T Q,
    trace (ovpn_peer_release p k)
    = trace k ++ EvBindReset :: T ++ Q ++ [EvDevPut; EvPeerMutexDestroy; EvKfreePeer]
    /\ T <> [] /\ Forall (fun e => step_of e = Some RelTimers) T
    /\ Q <> [] /\ Forall (fun e => step_of e = Some RelQueues) Q.
Proof.
  unfold ovpn_peer_release.
  destruct (timer_delete_all_trace (set_bind None p) (log EvBindReset k))
    as (T & HT & Tne & FT & _ & Tx & Rx & _).
  destruct (ovpn_peer_timer_delete_all (set_bind None p) (log EvBindReset k)) as [p1 k1].
  simpl in *. exists T.
  exists ((match tx_ring p1 with [] => [] | _ => [EvWarn] end)
          ++ [EvRingCleanup TX_RING (length (tx_ring p1))]
          ++ (match rx_ring p1 with [] => [] | _ => [EvWarn] end)
          ++ [EvRingCleanup RX_RING (length (rx_ring p1))]).
  split; [| split; [exact Tne | split; [exact FT | split]]].
  - destruct (tx_ring p1); destruct (rx_ring p1); simpl; rewrite HT;
      rewrite <- !app_assoc; simpl; rewrite <- ?app_assoc; reflexivity.
  - destruct (tx_ring p1); discriminate.
  - destruct (tx_ring p1); destruct (rx_ring p1); repeat constructor.
Qed.

(** C4, the claim as stated fails: for a dead peer that still has K1 in its
    primary slot, the release routine first clears the slot and puts the key
    (the CryptoState), and only then releases Bind; the CryptoState comes
    first, not fifth. *)
Lemma peer_release_rcu_not_in_spec_order :
  new_events kernel_K1 (ovpn_peer_release_rcu peer_dead kernel_K1)
  = [EvRcuReplace OVPN_KEY_SLOT_PRIMARY None (Some 0%N); EvKsPut 0%N; EvKsCallRcu 0%N;
     EvCryptoMutexDestroy;
     EvBindReset;
     EvTimerDelete KEEPALIVE_XMIT false; EvTimerDelete KEEPALIVE_EXPIRE false;
     EvRingCleanup TX_RING 0; EvRingCleanup RX_RING 0;
     EvDevPut;
     EvPeerMutexDestroy; EvKfreePeer]
  /\ release_steps (new_events kernel_K1 (ovpn_peer_release_rcu peer_dead kernel_K1))
     = [RelCrypto; RelBind; RelTimers; RelQueues; RelDevice; RelFree]
  /\ release_steps (new_events kernel_K1 (ovpn_peer_release_rcu peer_dead kernel_K1))
     <> spec_release_order.
Proof. split; [reflexivity | split; [reflexivity | discriminate]]. Qed.

(** C4, amended: the peer release routine performs its steps in the order
    (1) release the CryptoState, (2) release Bind, (3) stop both timers,
    (4) drain the TX and RX queues, (5) release the tunnel device reference,
    (6) free the peer.  Stopping the timers asserts nothing: both timers are
    cancelled, whatever their state, and no warning is raised there. *)
Theorem peer_release_rcu_order (peer : ovpn_peer) (k : kernel) :
  release_steps (new_events k (ovpn_peer_release_rcu peer k))
  = [RelCrypto; RelBind; RelTimers; RelQueues; RelDevice; RelFree]
  /\ pending (keepalive_xmit (fst (ovpn_peer_timer_delete_all peer k))) = false
  /\ pending (keepalive_expire (fst (ovpn_peer_timer_delete_all peer k))) = false
  /\ Forall (fun e => e <> EvWarn)
       (new_events k (snd (ovpn_peer_timer_delete_all peer k))).
Proof.
  split.
  - unfold ovpn_peer_release_rcu.
    destruct (crypto_release_trace (crypto peer) k) as (C & HC & Cne & FC).
    destruct (ovpn_crypto_state_release (crypto peer) k) as [cs k1]. simpl in HC.
    destruct (peer_release_trace (set_crypto cs peer) k1)
      as (T & Q & HR & Tne & FT & Qne & FQ).
    rewrite HC in HR.
    rewrite (new_events_app k _
               (C ++ [EvBindReset] ++ T ++ Q
                ++ [EvDevPut; EvPeerMutexDestroy; EvKfreePeer])).
    2: { rewrite HR, <- app_assoc. reflexivity. }
    unfold release_steps.
    rewrite (steps_from_enter None RelCrypto C) by (assumption || discriminate).
    rewrite (steps_from_enter (Some RelCrypto) RelBind [EvBindReset])
      by (repeat constructor || discriminate).
    rewrite (steps_from_enter (Some RelBind) RelTimers T) by (assumption || discriminate).
    rewrite (steps_from_enter (Some RelTimers) RelQueues Q) by (assumption || discriminate).
    reflexivity.
  - destruct (timer_delete_all_trace peer k) as (evs & H & _ & _ & W & _ & _ & Px & Pe).
    split; [exact Px |]. split; [exact Pe |].
    rewrite (new_events_app _ _ _ H). exact W.
Qed.

(** ** More of crypto.c: what a put does, and the outcomes of [reset] *)

Lemma put_effect a k ks :
  ks_heap k !! a = Some ks ->
  ks_heap (ovpn_crypto_key_slot_put a k)
  = <[a := set_ks_refcount (N.pred (ks_refcount ks)) ks]> (ks_heap k)
  /\ ks_rcu (ovpn_crypto_key_slot_put a k)
     = (if N.eqb (ks_refcount ks) 1 then ks_rcu k ++ [a] else ks_rcu k)
  /\ kmem (ovpn_crypto_key_slot_put a k) = kmem k
  /\ dev_refcnt (ovpn_crypto_key_slot_put a k) = dev_refcnt k.
Proof.
  intros Ha. unfold ovpn_crypto_key_slot_put. simpl. rewrite Ha.
  unfold kref_put. destruct (ks_refcount ks) as [| [p | p |]];
    repeat split; reflexivity.
Qed.

Lemma put_absent a k :
  ks_heap k !! a = None ->
  ks_heap (ovpn_crypto_key_slot_put a k) = ks_heap k
  /\ ks_rcu (ovpn_crypto_key_slot_put a k) = ks_rcu k.
Proof.
  intros Ha. unfold ovpn_crypto_key_slot_put. simpl. rewrite Ha. split; reflexivity.
Qed.

Lemma reset_needs_aead aead_setup cs pkr k res :
  ovpn_crypto_state_reset aead_setup cs pkr k = Some res ->
  cs_ops cs = Some ovpn_aead_ops.
Proof.
  unfold ovpn_crypto_state_reset, ovpn_ks_new.
  destruct (cs_ops cs) as [[] |]; (reflexivity || discriminate).
Qed.

(** Every way [reset] can return. *)
Lemma reset_outcomes aead_setup cs pkr k r cs' k' :
  ovpn_crypto_state_reset aead_setup cs pkr k = Some (r, cs', k') ->
  (exists e, r = neg_errno e /\ cs' = cs /\ k' = k)
  \/ (r = neg_errno EINVAL /\ cs' = cs
      /\ slot_ptr (pkr_slot pkr) cs = None
      /\ k' = kernel_after_dropped_slot k (pkr_key pkr) (pkr_remote_peer_id pkr))
  \/ (r = 0
      /\ (pkr_slot pkr = OVPN_KEY_SLOT_PRIMARY \/ pkr_slot pkr = OVPN_KEY_SLOT_SECONDARY)
      /\ cs' = set_slot_ptr (pkr_slot pkr) (Some (fresh (dom (ks_heap k)))) cs
      /\ k' = match slot_ptr (pkr_slot pkr) cs with
              | Some o => ovpn_crypto_key_slot_put o (kernel_after_install cs pkr k)
              | None => kernel_after_install cs pkr k
              end).
Proof.
  intros Hreset.
  pose proof (reset_needs_aead _ _ _ _ _ Hreset) as Hops.
  destruct (pkr_slot pkr) as [| | v] eqn:Hslot.
  3: { destruct (reset_raw_slot aead_setup cs pkr k v Hops Hslot)
         as [(e & _ & H) | (_ & H)]; rewrite H in Hreset;
         injection Hreset as <- <- <-; [left; eauto | right; left; auto]. }
  all: unfold ovpn_crypto_state_reset, ovpn_ks_new in Hreset;
    rewrite Hops, Hslot in Hreset; simpl in Hreset;
    destruct (aead_new_cases aead_setup (pkr_key pkr) k) as [[e He] | Hnew];
    [ rewrite He in Hreset; injection Hreset as <- <- <-; left; eauto |];
    rewrite Hnew in Hreset; clear Hnew; right; right;
    unfold kernel_after_install; rewrite Hslot;
    revert Hreset; generalize (fresh (dom (ks_heap k))); intros new Hreset;
    unfold log, set_ks_heap in Hreset; simpl in Hreset;
    rewrite alter_insert_eq, <- !app_assoc in Hreset; simpl in Hreset;
    injection Hreset as <- <- <-; simpl; rewrite Hops; auto 6.
Qed.

Lemma slot_ptr_set_same s p cs :
  s = OVPN_KEY_SLOT_PRIMARY \/ s = OVPN_KEY_SLOT_SECONDARY ->
  slot_ptr s (set_slot_ptr s p cs) = p.
Proof. intros [-> | ->]; reflexivity. Qed.

Lemma slot_ptr_set_other s s' p cs :
  s' <> s -> slot_ptr s' (set_slot_ptr s p cs) = slot_ptr s' cs.
Proof. destruct s, s'; simpl; intros H; (reflexivity || contradiction). Qed.

Lemma cs_ops_set_slot_ptr s p cs : cs_ops (set_slot_ptr s p cs) = cs_ops cs.
Proof. destruct s; reflexivity. Qed.

Lemma set_slot_ptr_same s cs : set_slot_ptr s (slot_ptr s cs) cs = cs.
Proof. destruct s, cs; reflexivity. Qed.

Lemma set_slot_ptr_twice s p q cs :
  set_slot_ptr s p (set_slot_ptr s q cs) = set_slot_ptr s p cs.
Proof. destruct s; reflexivity. Qed.

Lemma key_slot_delete_form cs slot k :
  ovpn_crypto_key_slot_delete cs slot k
  = (set_slot_ptr slot None cs,
     match slot_ptr slot cs with
     | Some a => ovpn_crypto_key_slot_put a (log (EvRcuReplace slot None (Some a)) k)
     | None =>
         match slot with
         | OVPN_KEY_SLOT_raw _ => k
         | _ => log (EvRcuReplace slot None None) k
         end
     end).
Proof.
  unfold ovpn_crypto_key_slot_delete.
  destruct slot; simpl;
    [destruct (cs_primary cs) | destruct (cs_secondary cs) |]; reflexivity.
Qed.

(** X1: a successful [reset] into an occupied slot takes exactly one
    reference from the key it replaces.  The old key stays in the heap; it is
    handed to [call_rcu] exactly when that reference was its last, so a key a
    reader still holds is not queued.  The new key sits at a fresh address,
    and no other key, the other slot pointer and the family are touched. *)
Theorem reset_rotates_key
    (aead_setup : ovpn_key_config -> option errno)
    (cs cs' : ovpn_crypto_state) (pkr : ovpn_peer_key_reset) (k k' : kernel)
    (old : N) (ks : ovpn_crypto_key_slot) :
  ovpn_crypto_state_reset aead_setup cs pkr k = Some (0, cs', k') ->
  slot_ptr (pkr_slot pkr) cs = Some old ->
  ks_heap k !! old = Some ks ->
  exists new,
    slot_ptr (pkr_slot pkr) cs' = Some new
    /\ new <> old
    /\ ks_heap k !! new = None
    /\ ks_heap k' !! old = Some (set_ks_refcount (N.pred (ks_refcount ks)) ks)
    /\ ks_rcu k' = (if N.eqb (ks_refcount ks) 1 then ks_rcu k ++ [old] else ks_rcu k)
    /\ (forall a, a <> old -> a <> new -> ks_heap k' !! a = ks_heap k !! a)
    /\ (forall s, s <> pkr_slot pkr -> slot_ptr s cs' = slot_ptr s cs)
    /\ cs_ops cs' = cs_ops cs.
Proof.
  intros Hreset Hold Hks.
  destruct (reset_outcomes _ _ _ _ _ _ _ Hreset)
    as [(e & Hr & _) | [(Hr & _) | (_ & Hslot & -> & ->)]].
  { exfalso. symmetry in Hr. exact (neg_errno_nonzero e Hr). }
  { discriminate. }
  rewrite Hold. unfold kernel_after_install.
  pose proof (fresh_slot_unused (ks_heap k)) as Hfresh.
  revert Hfresh. generalize (fresh (dom (ks_heap k))). intros new Hfresh.
  assert (Hne : new <> old) by (intros ->; congruence).
  exists new.
  match goal with
  | |- context [ovpn_crypto_key_slot_put old ?k0] =>
      destruct (put_effect old k0 ks) as (Hheap & Hrcu & _)
  end.
  { simpl. rewrite lookup_insert_ne by exact Hne. exact Hks. }
  simpl in Hheap, Hrcu.
  split; [apply slot_ptr_set_same, Hslot |].
  split; [exact Hne |]. split; [exact Hfresh |].
  split; [rewrite Hheap; apply lookup_insert_eq |].
  split; [exact Hrcu |].
  split; [| split; [intros s Hs; apply slot_ptr_set_other, Hs
                   | apply cs_ops_set_slot_ptr]].
  intros a Ha1 Ha2. rewrite Hheap.
  rewrite lookup_insert_ne by congruence.
  rewrite lookup_insert_ne by congruence. reflexivity.
Qed.

(** K1 replaced by a second K1: the first one loses its only reference and
    is queued. *)
Lemma reset_rotates_key_K1 :
  exists new k',
    ovpn_crypto_state_reset aead_accepts cs_K1 S1_select kernel_K1
    = Some (0, set_slot_ptr OVPN_KEY_SLOT_PRIMARY (Some new) cs_K1, k')
    /\ new <> 0%N
    /\ ks_rcu k' = [0%N].
Proof.
  eexists _, _. split; [reflexivity |].
  destruct (reset_rotates_key aead_accepts cs_K1 _ S1_select kernel_K1 _ 0%N
              (set_ks_remote_peer_id 2 (aead_key_slot K1)) eq_refl eq_refl eq_refl)
    as (new & Hptr & Hne & _ & _ & Hrcu & _).
  injection Hptr as <-. split; [exact Hne | exact Hrcu].
Defined.

(** X2: deleting the slot a [reset] has just filled undoes the [reset].  If
    the slot was empty before, the crypto state is back to what it was, the
    installed key has lost its only reference, and after the grace period the
    slot heap is what it would have been without the two calls. *)
Theorem reset_then_delete_restores
    (aead_setup : ovpn_key_config -> option errno)
    (cs cs1 : ovpn_crypto_state) (pkr : ovpn_peer_key_reset) (k k1 : kernel) :
  slot_ptr (pkr_slot pkr) cs = None ->
  ovpn_crypto_state_reset aead_setup cs pkr k = Some (0, cs1, k1) ->
  fst (ovpn_crypto_key_slot_delete cs1 (pkr_slot pkr) k1) = cs
  /\ ks_rcu (snd (ovpn_crypto_key_slot_delete cs1 (pkr_slot pkr) k1))
     = ks_rcu k ++ [fresh (dom (ks_heap k))]
  /\ ks_heap (rcu_grace_period (snd (ovpn_crypto_key_slot_delete cs1 (pkr_slot pkr) k1)))
     = ks_heap (rcu_grace_period k).
Proof.
  intros Hempty Hreset.
  destruct (reset_outcomes _ _ _ _ _ _ _ Hreset)
    as [(e & Hr & _) | [(Hr & _) | (_ & Hslot & -> & ->)]].
  { exfalso. symmetry in Hr. exact (neg_errno_nonzero e Hr). }
  { discriminate. }
  rewrite Hempty, key_slot_delete_form. simpl fst. simpl snd.
  rewrite slot_ptr_set_same by exact Hslot.
  rewrite set_slot_ptr_twice, <- Hempty, set_slot_ptr_same.
  split; [reflexivity |].
  unfold kernel_after_install.
  pose proof (fresh_slot_unused (ks_heap k)) as Hfresh.
  revert Hfresh. generalize (fresh (dom (ks_heap k))). intros new Hfresh.
  match goal with
  | |- context [ovpn_crypto_key_slot_put new ?k0] =>
      destruct (put_effect new k0
                  (set_ks_remote_peer_id (pkr_remote_peer_id pkr)
                     (aead_key_slot (pkr_key pkr)))) as (Hheap & Hrcu & _)
  end.
  { simpl. apply lookup_insert_eq. }
  simpl in Hheap, Hrcu.
  split; [exact Hrcu |].
  rewrite !grace_period_heap, Hheap, Hrcu, insert_insert_eq.
  apply destroy_added_last; [exact Hfresh | reflexivity].
Qed.

(** S1 followed by the deletion of the primary slot. *)
Lemma reset_then_delete_restores_S1 :
  exists cs1 k1,
    ovpn_crypto_state_reset aead_accepts cs_aead S1_select kernel0 = Some (0, cs1, k1)
    /\ fst (ovpn_crypto_key_slot_delete cs1 OVPN_KEY_SLOT_PRIMARY k1) = cs_aead
    /\ ks_heap (rcu_grace_period (snd (ovpn_crypto_key_slot_delete cs1
                                         OVPN_KEY_SLOT_PRIMARY k1)))
       = ks_heap (rcu_grace_period kernel0).
Proof.
  eexists _, _. split; [reflexivity |].
  destruct (reset_then_delete_restores aead_accepts cs_aead _ S1_select kernel0 _
              eq_refl eq_refl) as (H1 & _ & H2).
  split; [exact H1 | exact H2].
Defined.

Lemma slot_ptr_set_none s cs : slot_ptr s (set_slot_ptr s None cs) = None.
Proof. destruct s; reflexivity. Qed.

(** X3: [ovpn_crypto_key_slot_delete] clears the addressed slot and nothing
    else: the other slot pointer and the family stay.  The key that sat in
    the slot loses one reference and is handed to [call_rcu] exactly when
    that was its last.  On an empty slot, and on a slot value that is
    neither primary nor secondary, state, key heap and RCU queue are left as
    they are; so a second delete of the same slot changes nothing. *)
Theorem key_slot_delete_effect
    (cs : ovpn_crypto_state) (slot : ovpn_key_slot) (k : kernel) :
  cs_ops (fst (ovpn_crypto_key_slot_delete cs slot k)) = cs_ops cs
  /\ slot_ptr slot (fst (ovpn_crypto_key_slot_delete cs slot k)) = None
  /\ (forall s, s <> slot ->
        slot_ptr s (fst (ovpn_crypto_key_slot_delete cs slot k)) = slot_ptr s cs)
  /\ (forall a ks, slot_ptr slot cs = Some a -> ks_heap k !! a = Some ks ->
        ks_heap (snd (ovpn_crypto_key_slot_delete cs slot k))
        = <[a := set_ks_refcount (N.pred (ks_refcount ks)) ks]> (ks_heap k)
        /\ ks_rcu (snd (ovpn_crypto_key_slot_delete cs slot k))
           = (if N.eqb (ks_refcount ks) 1 then ks_rcu k ++ [a] else ks_rcu k))
  /\ (slot_ptr slot cs = None ->
        fst (ovpn_crypto_key_slot_delete cs slot k) = cs
        /\ ks_heap (snd (ovpn_crypto_key_slot_delete cs slot k)) = ks_heap k
        /\ ks_rcu (snd (ovpn_crypto_key_slot_delete cs slot k)) = ks_rcu k)
  /\ fst (ovpn_crypto_key_slot_delete
            (fst (ovpn_crypto_key_slot_delete cs slot k)) slot
            (snd (ovpn_crypto_key_slot_delete cs slot k)))
     = fst (ovpn_crypto_key_slot_delete cs slot k)
  /\ ks_heap (snd (ovpn_crypto_key_slot_delete
                     (fst (ovpn_crypto_key_slot_delete cs slot k)) slot
                     (snd (ovpn_crypto_key_slot_delete cs slot k))))
     = ks_heap (snd (ovpn_crypto_key_slot_delete cs slot k))
  /\ ks_rcu (snd (ovpn_crypto_key_slot_delete
                    (fst (ovpn_crypto_key_slot_delete cs slot k)) slot
                    (snd (ovpn_crypto_key_slot_delete cs slot k))))
     = ks_rcu (snd (ovpn_crypto_key_slot_delete cs slot k)).
Proof.
  assert (Hempty : forall cs0 k0, slot_ptr slot cs0 = None ->
            fst (ovpn_crypto_key_slot_delete cs0 slot k0) = cs0
            /\ ks_heap (snd (ovpn_crypto_key_slot_delete cs0 slot k0)) = ks_heap k0
            /\ ks_rcu (snd (ovpn_crypto_key_slot_delete cs0 slot k0)) = ks_rcu k0).
  { intros cs0 k0 H. rewrite key_slot_delete_form, H. simpl fst. simpl snd.
    split; [rewrite <- H; apply set_slot_ptr_same |].
    destruct slot; split; reflexivity. }
  rewrite (key_slot_delete_form cs slot k). simpl fst. simpl snd.
  split; [apply cs_ops_set_slot_ptr |].
  split; [apply slot_ptr_set_none |].
  split; [intros s Hs; apply slot_ptr_set_other, Hs |].
  split.
  { intros a ks Ha Hks. rewrite Ha.
    destruct (put_effect a (log (EvRcuReplace slot None (Some a)) k) ks Hks)
      as (Hheap & Hrcu & _).
    split; [exact Hheap | exact Hrcu]. }
  split.
  { intros H. specialize (Hempty cs k H).
    rewrite key_slot_delete_form in Hempty. exact Hempty. }
  apply Hempty, slot_ptr_set_none.
Qed.

(** Deleting the primary slot of the S1 state queues K1; deleting it again
    changes neither state nor queue. *)
Lemma key_slot_delete_effect_K1 :
  ks_rcu (snd (ovpn_crypto_key_slot_delete cs_K1 OVPN_KEY_SLOT_PRIMARY kernel_K1)) = [0%N]
  /\ fst (ovpn_crypto_key_slot_delete cs_aead OVPN_KEY_SLOT_PRIMARY kernel0) = cs_aead.
Proof.
  split.
  - exact (proj2 (proj1 (proj2 (proj2 (proj2
             (key_slot_delete_effect cs_K1 OVPN_KEY_SLOT_PRIMARY kernel_K1))))
             0%N (set_ks_remote_peer_id 2 (aead_key_slot K1)) eq_refl eq_refl)).
  - exact (proj1 (proj1 (proj2 (proj2 (proj2 (proj2
             (key_slot_delete_effect cs_aead OVPN_KEY_SLOT_PRIMARY kernel0)))))
             eq_refl)).
Defined.

(** *** The state owns its slots, whatever the control path does *)

Lemma destroy_in_heap_other h a b :
  a <> b -> destroy_in_heap h a !! b = h !! b.
Proof.
  intros Hne. unfold destroy_in_heap.
  destruct (h !! a) as [ks |]; [| reflexivity].
  destruct (ks_ops ks); [| reflexivity].
  apply lookup_delete_ne, Hne.
Qed.

Lemma foldl_destroy_other l : forall h b,
  b ∉ l -> foldl destroy_in_heap h l !! b = h !! b.
Proof.
  induction l as [| a l IH]; intros h b Hb; simpl; [reflexivity |].
  apply not_elem_of_cons in Hb as [Hne Hb].
  rewrite IH by exact Hb. apply destroy_in_heap_other. congruence.
Qed.

Lemma destroy_rcu_queue a k : ks_rcu (ovpn_ks_destroy_rcu a k) = ks_rcu k.
Proof.
  unfold ovpn_ks_destroy_rcu.
  destruct (ks_heap k !! a) as [ks |]; [| reflexivity].
  destruct (ks_ops ks); reflexivity.
Qed.

Lemma grace_period_queue k : ks_rcu (rcu_grace_period k) = [].
Proof.
  unfold rcu_grace_period.
  assert (H : forall l k0, ks_rcu (foldl (fun k a => ovpn_ks_destroy_rcu a k) k0 l)
                           = ks_rcu k0).
  { induction l as [| a l IH]; intros k0; simpl; [reflexivity |].
    rewrite IH. apply destroy_rcu_queue. }
  rewrite H. reflexivity.
Qed.

Lemma slot_live_heap k k' p :
  (forall a, p = Some a -> ks_heap k' !! a = ks_heap k !! a) ->
  slot_live k p -> slot_live k' p.
Proof.
  destruct p as [a |]; simpl; [| auto].
  intros H (ks & Hks & Hrc). exists ks. rewrite H by reflexivity. auto.
Qed.

Lemma wf_grace cs k : crypto_wf cs k -> crypto_wf cs (rcu_grace_period k).
Proof.
  intros (Hp & Hs & Hd & Hq).
  assert (Hkeep : forall p, slot_live k p ->
            forall a, p = Some a ->
              ks_heap (rcu_grace_period k) !! a = ks_heap k !! a).
  { intros p Hlive a ->. rewrite grace_period_heap.
    apply foldl_destroy_other. intros Hin.
    destruct Hlive as (ks & Hks & Hrc).
    destruct (Hq a Hin) as (ks' & Hks' & Hzero).
    rewrite Hks in Hks'. injection Hks' as <-. rewrite Hzero in Hrc. lia. }
  unfold crypto_wf.
  split; [apply (slot_live_heap k); [apply Hkeep, Hp | exact Hp] |].
  split; [apply (slot_live_heap k); [apply Hkeep, Hs | exact Hs] |].
  split; [exact Hd |].
  intros a Ha. rewrite grace_period_queue in Ha. inversion Ha.
Qed.

Lemma wf_select cs pkr k :
  crypto_wf cs k -> crypto_wf (snd (ovpn_crypto_state_select_family cs pkr)) k.
Proof.
  intros Hwf. unfold ovpn_crypto_state_select_family.
  destruct (ovpn_crypto_select_family pkr) as [new_ops |]; [| exact Hwf].
  destruct (cs_ops cs) as [ops |]; [destruct (decide (ops = new_ops)) |];
    exact Hwf.
Qed.

(** Storing a slot with a reference at an unused address, queue as it was,
    and putting the key that was in the addressed slot. *)
Lemma wf_install s new st cs k k0 :
  s = OVPN_KEY_SLOT_PRIMARY \/ s = OVPN_KEY_SLOT_SECONDARY ->
  ks_heap k !! new = None ->
  (1 <= ks_refcount st)%N ->
  ks_heap k0 = <[new := st]> (ks_heap k) ->
  ks_rcu k0 = ks_rcu k ->
  crypto_wf cs k ->
  crypto_wf (set_slot_ptr s (Some new) cs)
    match slot_ptr s cs with
    | Some o => ovpn_crypto_key_slot_put o k0
    | None => k0
    end.
Proof.
  intros Hs Hnew Hst Hheap0 Hrcu0 (Hp & Hsec & Hd & Hq).
  assert (Hold : forall b, slot_live k (Some b) -> b <> new).
  { intros b (ks & Hks & _) ->. congruence. }
  assert (Hqne : forall c, c ∈ ks_rcu k -> c <> new).
  { intros c Hc ->. destruct (Hq new Hc) as (ks & Hks & _). congruence. }
  destruct (slot_ptr s cs) as [o |] eqn:Hptr.
  - assert (Hlo : slot_live k (Some o))
      by (destruct Hs as [-> | ->]; simpl in Hptr; rewrite <- Hptr; assumption).
    pose proof (Hold o Hlo) as Hone.
    destruct Hlo as (kso & Hkso & Hrco).
    destruct (put_effect o k0 kso) as (Hheap & Hrcu & _).
    { rewrite Hheap0, lookup_insert_ne by congruence. exact Hkso. }
    rewrite Hheap0 in Hheap. rewrite Hrcu0 in Hrcu.
    assert (Hlnew : slot_live (ovpn_crypto_key_slot_put o k0) (Some new)).
    { exists st. rewrite Hheap, lookup_insert_ne, lookup_insert_eq by congruence. auto. }
    assert (Hother : forall b, b <> o -> slot_live k (Some b) ->
              slot_live (ovpn_crypto_key_slot_put o k0) (Some b)).
    { intros b Hbo Hb. pose proof (Hold b Hb) as Hbn.
      destruct Hb as (ks & Hks & Hrc). exists ks.
      rewrite Hheap, !lookup_insert_ne by congruence. auto. }
    assert (Hqueue : forall a, a ∈ ks_rcu (ovpn_crypto_key_slot_put o k0) ->
              exists ks, ks_heap (ovpn_crypto_key_slot_put o k0) !! a = Some ks
                         /\ ks_refcount ks = 0%N).
    { intros a Ha. rewrite Hrcu in Ha. rewrite Hheap.
      assert (Hin : a ∈ ks_rcu k \/ (a = o /\ ks_refcount kso = 1%N)).
      { destruct (N.eqb (ks_refcount kso) 1) eqn:E; [| auto].
        apply elem_of_app in Ha as [Ha | Ha]; [auto |].
        apply list_elem_of_singleton in Ha. apply N.eqb_eq in E. auto. }
      destruct Hin as [Hin | [-> Hone']].
      - destruct (Hq a Hin) as (ks & Hks & Hzero).
        exists ks. rewrite !lookup_insert_ne; [auto | apply not_eq_sym, Hqne, Hin |].
        intros <-. rewrite Hkso in Hks. injection Hks as <-. lia.
      - eexists. rewrite lookup_insert_eq. split; [reflexivity |].
        simpl. rewrite Hone'. reflexivity. }
    destruct Hs as [-> | ->]; unfold crypto_wf; simpl in Hptr |- *.
    + split; [exact Hlnew |]. split; [| split; [| exact Hqueue]].
      * destruct (cs_secondary cs) as [b |] eqn:Hb; [| exact I].
        apply Hother; [| exact Hsec]. intros ->. exact (Hd o Hptr eq_refl).
      * intros a [= <-] Hb. rewrite Hb in Hsec. exact (Hold new Hsec eq_refl).
    + split; [| split; [exact Hlnew | split; [| exact Hqueue]]].
      * destruct (cs_primary cs) as [b |] eqn:Hb; [| exact I].
        apply Hother; [| exact Hp]. intros ->. exact (Hd o eq_refl Hptr).
      * intros a Ha [= <-]. rewrite Ha in Hp. exact (Hold new Hp eq_refl).
  - assert (Hlnew : slot_live k0 (Some new)).
    { exists st. rewrite Hheap0, lookup_insert_eq. auto. }
    assert (Hother : forall b, slot_live k (Some b) -> slot_live k0 (Some b)).
    { intros b Hb. pose proof (Hold b Hb) as Hbn.
      destruct Hb as (ks & Hks & Hrc). exists ks.
      rewrite Hheap0, lookup_insert_ne by congruence. auto. }
    assert (Hqueue : forall a, a ∈ ks_rcu k0 ->
              exists ks, ks_heap k0 !! a = Some ks /\ ks_refcount ks = 0%N).
    { intros a Ha. rewrite Hrcu0 in Ha. destruct (Hq a Ha) as (ks & Hks & Hzero).
      exists ks. rewrite Hheap0, lookup_insert_ne; [auto |].
      apply not_eq_sym, Hqne, Ha. }
    destruct Hs as [-> | ->]; unfold crypto_wf; simpl in Hptr |- *.
    + split; [exact Hlnew |]. split; [| split; [| exact Hqueue]].
      * destruct (cs_secondary cs) as [b |]; [apply Hother, Hsec | exact I].
      * intros a [= <-] Hb. rewrite Hb in Hsec. exact (Hold new Hsec eq_refl).
    + split; [| split; [exact Hlnew | split; [| exact Hqueue]]].
      * destruct (cs_primary cs) as [b |]; [apply Hother, Hp | exact I].
      * intros a Ha [= <-]. rewrite Ha in Hp. exact (Hold new Hp eq_refl).
Qed.

Lemma wf_dropped cs k kc id :
  crypto_wf cs k -> crypto_wf cs (kernel_after_dropped_slot k kc id).
Proof.
  intros (Hp & Hs & Hd & Hq).
  pose proof (fresh_slot_unused (ks_heap k)) as Hfresh.
  unfold kernel_after_dropped_slot.
  revert Hfresh. generalize (fresh (dom (ks_heap k))). intros new Hfresh.
  assert (Hkeep : forall p, slot_live k p -> forall a, p = Some a ->
            (<[new := set_ks_refcount 0
                        (set_ks_remote_peer_id id (aead_key_slot kc))]> (ks_heap k)) !! a
            = ks_heap k !! a).
  { intros p Hlive a ->. destruct Hlive as (ks & Hks & _).
    apply lookup_insert_ne. congruence. }
  unfold crypto_wf.
  split; [apply (slot_live_heap k); [apply Hkeep, Hp | exact Hp] |].
  split; [apply (slot_live_heap k); [apply Hkeep, Hs | exact Hs] |].
  split; [exact Hd |].
  simpl. intros a Ha. apply elem_of_app in Ha as [Ha | Ha].
  - destruct (Hq a Ha) as (ks & Hks & Hzero). exists ks.
    rewrite lookup_insert_ne by congruence. auto.
  - apply list_elem_of_singleton in Ha as ->. eexists.
    rewrite lookup_insert_eq. split; reflexivity.
Qed.

Lemma wf_delete cs slot k :
  crypto_wf cs k ->
  crypto_wf (fst (ovpn_crypto_key_slot_delete cs slot k))
            (snd (ovpn_crypto_key_slot_delete cs slot k)).
Proof.
  intros Hwf. rewrite key_slot_delete_form. simpl fst. simpl snd.
  destruct (slot_ptr slot cs) as [o |] eqn:Hptr.
  2: { rewrite <- Hptr, set_slot_ptr_same. destruct slot; exact Hwf. }
  destruct Hwf as (Hp & Hs & Hd & Hq).
  assert (Hlo : slot_live k (Some o))
    by (destruct slot; simpl in Hptr; try discriminate; rewrite <- Hptr; assumption).
  destruct Hlo as (kso & Hkso & Hrco).
  destruct (put_effect o (log (EvRcuReplace slot None (Some o)) k) kso Hkso)
    as (Hheap & Hrcu & _).
  simpl in Hheap, Hrcu.
  set (k' := ovpn_crypto_key_slot_put o (log (EvRcuReplace slot None (Some o)) k)) in *.
  assert (Hother : forall b, b <> o -> slot_live k (Some b) -> slot_live k' (Some b)).
  { intros b Hbo (ks & Hks & Hrc). exists ks.
    rewrite Hheap, lookup_insert_ne by congruence. auto. }
  assert (Hqueue : forall a, a ∈ ks_rcu k' ->
            exists ks, ks_heap k' !! a = Some ks /\ ks_refcount ks = 0%N).
  { intros a Ha. rewrite Hrcu in Ha. rewrite Hheap.
    assert (Hin : a ∈ ks_rcu k \/ (a = o /\ ks_refcount kso = 1%N)).
    { destruct (N.eqb (ks_refcount kso) 1) eqn:E; [| auto].
      apply elem_of_app in Ha as [Ha | Ha]; [auto |].
      apply list_elem_of_singleton in Ha. apply N.eqb_eq in E. auto. }
    destruct Hin as [Hin | [-> Hone']].
    - destruct (Hq a Hin) as (ks & Hks & Hzero).
      exists ks. rewrite lookup_insert_ne; [auto |].
      intros <-. rewrite Hkso in Hks. injection Hks as <-. lia.
    - eexists. rewrite lookup_insert_eq. split; [reflexivity |].
      simpl. rewrite Hone'. reflexivity. }
  destruct slot as [| | v]; simpl in Hptr |- *; try discriminate; unfold crypto_wf; simpl.
  - split; [exact I |]. split; [| split; [discriminate | exact Hqueue]].
    destruct (cs_secondary cs) as [b |] eqn:Hb; [| exact I].
    apply Hother; [| exact Hs]. intros ->. exact (Hd o Hptr eq_refl).
  - split; [| split; [exact I | split; [discriminate | exact Hqueue]]].
    destruct (cs_primary cs) as [b |] eqn:Hb; [| exact I].
    apply Hother; [| exact Hp]. intros ->. exact (Hd o eq_refl Hptr).
Qed.

Lemma wf_reset aead_setup cs pkr k r cs' k' :
  ovpn_crypto_state_reset aead_setup cs pkr k = Some (r, cs', k') ->
  crypto_wf cs k -> crypto_wf cs' k'.
Proof.
  intros Hreset Hwf.
  destruct (reset_outcomes _ _ _ _ _ _ _ Hreset)
    as [(e & _ & -> & ->) | [(_ & -> & _ & ->) | (_ & Hslot & -> & ->)]].
  - exact Hwf.
  - apply wf_dropped, Hwf.
  - apply (wf_install (pkr_slot pkr) (fresh (dom (ks_heap k)))
             (set_ks_remote_peer_id (pkr_remote_peer_id pkr)
                (aead_key_slot (pkr_key pkr))) cs k);
      [exact Hslot | apply fresh_slot_unused | simpl; lia
      | reflexivity | reflexivity | exact Hwf].
Qed.

Lemma wf_step aead_setup op cs k cs' k' :
  crypto_step aead_setup op (cs, k) = Some (cs', k') ->
  crypto_wf cs k -> crypto_wf cs' k'.
Proof.
  destruct op as [pkr | pkr | slot |]; simpl.
  - intros [= <- <-]. apply wf_select.
  - destruct (ovpn_crypto_state_reset aead_setup cs pkr k) as [[[r cs1] k1] |] eqn:E;
      [| discriminate].
    intros [= <- <-]. eapply wf_reset; eassumption.
  - intros H Hwf. pose proof (wf_delete cs slot k Hwf) as Hd.
    rewrite (surjective_pairing (ovpn_crypto_key_slot_delete cs slot k)) in H.
    injection H as <- <-. exact Hd.
  - intros [= <- <-]. apply wf_grace.
Qed.

(** X4: no key the crypto state points to is ever destroyed under it.  From
    a state that owns its slots, any sequence of [select_family], [reset],
    slot deletions and grace periods leads to a state whose slot pointers
    are distinct and point to keys that are in the heap, hold a reference
    and are not queued for destruction. *)
Theorem crypto_run_keeps_slots_live
    (aead_setup : ovpn_key_config -> option errno) (ops : list crypto_op)
    (cs cs' : ovpn_crypto_state) (k k' : kernel) :
  crypto_wf cs k ->
  crypto_run aead_setup ops (cs, k) = Some (cs', k') ->
  crypto_wf cs' k'
  /\ forall s a, slot_ptr s cs' = Some a ->
       exists ks, ks_heap k' !! a = Some ks
                  /\ (1 <= ks_refcount ks)%N
                  /\ a ∉ ks_rcu k'.
Proof.
  intros Hwf Hrun.
  assert (Hwf' : crypto_wf cs' k').
  { revert cs k Hwf Hrun. induction ops as [| op ops IH]; intros cs k Hwf Hrun.
    - simpl in Hrun. injection Hrun as <- <-. exact Hwf.
    - simpl in Hrun.
      destruct (crypto_step aead_setup op (cs, k)) as [[cs1 k1] |] eqn:E;
        [| discriminate].
      eapply IH; [| exact Hrun]. eapply wf_step; eassumption. }
  split; [exact Hwf' |].
  destruct Hwf' as (Hp & Hs & _ & Hq).
  intros s a Hptr.
  assert (Hlive : slot_live k' (Some a))
    by (destruct s; simpl in Hptr; try discriminate; rewrite <- Hptr; assumption).
  destruct Hlive as (ks & Hks & Hrc).
  exists ks. split; [exact Hks |]. split; [exact Hrc |].
  intros Hin. destruct (Hq a Hin) as (ks' & Hks' & Hzero).
  rewrite Hks in Hks'. injection Hks' as <-. lia.
Qed.

Lemma crypto_wf_init : crypto_wf ovpn_crypto_state_init kernel0.
Proof.
  unfold crypto_wf. simpl.
  split; [exact I |]. split; [exact I |]. split; [discriminate |].
  intros a Ha. apply not_elem_of_nil in Ha. destruct Ha.
Defined.

(** A rotation, a grace period and a deletion after S1. *)
Lemma crypto_run_keeps_slots_live_S1 :
  exists cs' k',
    crypto_run aead_accepts
      [OpSelectFamily S1_select; OpReset S1_select; OpReset K1_secondary;
       OpReset S1_select; OpGracePeriod; OpDeleteSlot OVPN_KEY_SLOT_SECONDARY]
      (ovpn_crypto_state_init, kernel0) = Some (cs', k')
    /\ crypto_wf cs' k'.
Proof.
  eexists _, _. split; [vm_compute; reflexivity |].
  refine (proj1 (crypto_run_keeps_slots_live aead_accepts
            [OpSelectFamily S1_select; OpReset S1_select; OpReset K1_secondary;
             OpReset S1_select; OpGracePeriod; OpDeleteSlot OVPN_KEY_SLOT_SECONDARY]
            ovpn_crypto_state_init _ kernel0 _ crypto_wf_init _)).
  vm_compute. reflexivity.
Defined.

Lemma select_family_ops cs pkr :
  cs_ops (snd (ovpn_crypto_state_select_family cs pkr)) = cs_ops cs
  \/ (cs_ops cs = None
      /\ cs_ops (snd (ovpn_crypto_state_select_family cs pkr)) = Some ovpn_aead_ops).
Proof.
  unfold ovpn_crypto_state_select_family.
  destruct (select_family_table pkr) as [-> | [_ ->]]; [auto |].
  destruct (cs_ops cs) as [ops |] eqn:E.
  - destruct (decide (ops = ovpn_aead_ops)) as [-> | ]; simpl; auto.
  - simpl. auto.
Qed.

Lemma crypto_step_ops aead_setup op cs k cs' k' :
  crypto_step aead_setup op (cs, k) = Some (cs', k') ->
  cs_ops cs' = cs_ops cs
  \/ (cs_ops cs = None /\ cs_ops cs' = Some ovpn_aead_ops).
Proof.
  destruct op as [pkr | pkr | slot |]; simpl.
  - intros [= <- <-]. apply select_family_ops.
  - destruct (ovpn_crypto_state_reset aead_setup cs pkr k) as [[[r cs1] k1] |] eqn:E;
      [| discriminate].
    intros [= <- <-]. left.
    destruct (reset_outcomes _ _ _ _ _ _ _ E)
      as [(e & _ & -> & _) | [(_ & -> & _) | (_ & _ & -> & _)]];
      [reflexivity | reflexivity | apply cs_ops_set_slot_ptr].
  - rewrite key_slot_delete_form. intros [= <- <-]. left. apply cs_ops_set_slot_ptr.
  - intros [= <- <-]. auto.
Qed.

(** X5: the family binding is immutable.  Over any sequence of
    [select_family], [reset], slot deletions and grace periods, [cs->ops]
    keeps the table it has; a state without a table can only ever get the
    AEAD one. *)
Theorem crypto_run_family_immutable
    (aead_setup : ovpn_key_config -> option errno) (ops : list crypto_op)
    (cs cs' : ovpn_crypto_state) (k k' : kernel) :
  crypto_run aead_setup ops (cs, k) = Some (cs', k') ->
  cs_ops cs' = cs_ops cs
  \/ (cs_ops cs = None /\ cs_ops cs' = Some ovpn_aead_ops).
Proof.
  revert cs k. induction ops as [| op ops IH]; intros cs k Hrun; simpl in Hrun.
  - injection Hrun as <- <-. auto.
  - destruct (crypto_step aead_setup op (cs, k)) as [[cs1 k1] |] eqn:E; [| discriminate].
    destruct (crypto_step_ops _ _ _ _ _ _ E) as [H1 | [H1 H1']];
      destruct (IH _ _ Hrun) as [H2 | [H2 H2']].
    + left. congruence.
    + right. split; congruence.
    + right. split; congruence.
    + congruence.
Qed.

(** A state bound to a foreign table keeps it through a [select_family] and
    a deletion. *)
Lemma crypto_run_family_immutable_foreign :
  exists cs' k',
    crypto_run aead_accepts [OpSelectFamily S1_select; OpDeleteSlot OVPN_KEY_SLOT_PRIMARY]
      (cs_foreign, kernel0) = Some (cs', k')
    /\ cs_ops cs' = Some ovpn_chm_ops.
Proof.
  eexists _, _. split; [vm_compute; reflexivity |].
  destruct (crypto_run_family_immutable aead_accepts
              [OpSelectFamily S1_select; OpDeleteSlot OVPN_KEY_SLOT_PRIMARY]
              cs_foreign _ kernel0 _ eq_refl) as [H | [H _]].
  - exact H.
  - discriminate H.
Defined.

(** *** Releasing the whole state *)

Lemma put_congr a k1 k2 :
  ks_heap k1 = ks_heap k2 -> ks_rcu k1 = ks_rcu k2 ->
  ks_heap (ovpn_crypto_key_slot_put a k1) = ks_heap (ovpn_crypto_key_slot_put a k2)
  /\ ks_rcu (ovpn_crypto_key_slot_put a k1) = ks_rcu (ovpn_crypto_key_slot_put a k2).
Proof.
  intros Hh Hr. unfold ovpn_crypto_key_slot_put. simpl. rewrite Hh.
  destruct (ks_heap k2 !! a) as [ks |]; simpl; [| auto].
  destruct (kref_put (ks_refcount ks)) as [n []]; simpl; rewrite ?Hh, ?Hr; auto.
Qed.

Lemma crypto_wf_ext cs k1 k2 :
  ks_heap k1 = ks_heap k2 -> ks_rcu k1 = ks_rcu k2 ->
  crypto_wf cs k1 -> crypto_wf cs k2.
Proof.
  intros Hh Hr (Hp & Hs & Hd & Hq). unfold crypto_wf, slot_live in *.
  rewrite <- Hh, <- Hr. auto.
Qed.

(** On state, key heap and RCU queue, releasing the state is deleting the
    primary and then the secondary slot. *)
Lemma release_as_deletes cs k :
  fst (ovpn_crypto_state_release cs k)
  = fst (ovpn_crypto_key_slot_delete
           (fst (ovpn_crypto_key_slot_delete cs OVPN_KEY_SLOT_PRIMARY k))
           OVPN_KEY_SLOT_SECONDARY
           (snd (ovpn_crypto_key_slot_delete cs OVPN_KEY_SLOT_PRIMARY k)))
  /\ ks_heap (snd (ovpn_crypto_state_release cs k))
     = ks_heap (snd (ovpn_crypto_key_slot_delete
                       (fst (ovpn_crypto_key_slot_delete cs OVPN_KEY_SLOT_PRIMARY k))
                       OVPN_KEY_SLOT_SECONDARY
                       (snd (ovpn_crypto_key_slot_delete cs OVPN_KEY_SLOT_PRIMARY k))))
  /\ ks_rcu (snd (ovpn_crypto_state_release cs k))
     = ks_rcu (snd (ovpn_crypto_key_slot_delete
                      (fst (ovpn_crypto_key_slot_delete cs OVPN_KEY_SLOT_PRIMARY k))
                      OVPN_KEY_SLOT_SECONDARY
                      (snd (ovpn_crypto_key_slot_delete cs OVPN_KEY_SLOT_PRIMARY k)))).
Proof.
  rewrite !key_slot_delete_form. unfold ovpn_crypto_state_release.
  destruct cs as [[a |] [b |] o]; simpl.
  - split; [reflexivity |]. apply put_congr; reflexivity.
  - split; [reflexivity |]. split; reflexivity.
  - split; [reflexivity |]. apply put_congr; reflexivity.
  - split; [reflexivity |]. split; reflexivity.
Qed.

(** X6: [ovpn_crypto_state_release] empties both slots and keeps the family
    binding.  On a state that owns its slots, each installed key loses
    exactly the state's reference and is handed to [call_rcu] when that was
    its last; no other key of the heap is touched, and nothing that is
    queued still has a reference. *)
Theorem crypto_state_release_effect (cs : ovpn_crypto_state) (k : kernel) :
  crypto_wf cs k ->
  cs_primary (fst (ovpn_crypto_state_release cs k)) = None
  /\ cs_secondary (fst (ovpn_crypto_state_release cs k)) = None
  /\ cs_ops (fst (ovpn_crypto_state_release cs k)) = cs_ops cs
  /\ crypto_wf (fst (ovpn_crypto_state_release cs k))
               (snd (ovpn_crypto_state_release cs k))
  /\ (forall s a ks, slot_ptr s cs = Some a -> ks_heap k !! a = Some ks ->
        ks_heap (snd (ovpn_crypto_state_release cs k)) !! a
        = Some (set_ks_refcount (N.pred (ks_refcount ks)) ks)
        /\ (ks_refcount ks = 1%N -> a ∈ ks_rcu (snd (ovpn_crypto_state_release cs k))))
  /\ (forall a, cs_primary cs <> Some a -> cs_secondary cs <> Some a ->
        ks_heap (snd (ovpn_crypto_state_release cs k)) !! a = ks_heap k !! a).
Proof.
  intros Hwf.
  destruct (release_as_deletes cs k) as (Hcs & Hheap & Hrcu).
  split; [| split; [| split; [| split]]].
  - unfold ovpn_crypto_state_release. destruct cs as [[a |] [b |] o]; reflexivity.
  - unfold ovpn_crypto_state_release. destruct cs as [[a |] [b |] o]; reflexivity.
  - unfold ovpn_crypto_state_release. destruct cs as [[a |] [b |] o]; reflexivity.
  - rewrite Hcs.
    eapply crypto_wf_ext; [symmetry; exact Hheap | symmetry; exact Hrcu |].
    apply wf_delete, wf_delete, Hwf.
  - destruct Hwf as (Hp & Hs & Hd & Hq).
    clear Hcs Hheap Hrcu. unfold ovpn_crypto_state_release.
    destruct cs as [[a |] [b |] o]; simpl in *.
    + assert (Hab : a <> b) by (intros ->; exact (Hd b eq_refl eq_refl)).
      destruct Hp as (ksa & Hksa & _). destruct Hs as (ksb & Hksb & _).
      destruct (put_effect a (log (EvRcuReplace OVPN_KEY_SLOT_PRIMARY None (Some a)) k)
                  ksa Hksa) as (Hh1 & Hr1 & _).
      simpl in Hh1, Hr1.
      set (k1 := ovpn_crypto_key_slot_put a
                   (log (EvRcuReplace OVPN_KEY_SLOT_PRIMARY None (Some a)) k)) in *.
      destruct (put_effect b (log (EvRcuReplace OVPN_KEY_SLOT_SECONDARY None (Some b)) k1)
                  ksb) as (Hh2 & Hr2 & _).
      { simpl. rewrite Hh1, lookup_insert_ne by exact Hab. exact Hksb. }
      simpl in Hh2, Hr2. rewrite Hh1 in Hh2. rewrite Hr1 in Hr2.
      split.
      * intros s c ks Hc Hks.
        destruct s; simpl in Hc; try discriminate; injection Hc as <-.
        -- rewrite Hks in Hksa. injection Hksa as <-.
           rewrite Hh2, lookup_insert_ne, lookup_insert_eq by congruence.
           split; [reflexivity |]. intros Hone. rewrite Hr2, Hone. simpl.
           destruct (N.eqb (ks_refcount ksb) 1); rewrite ?elem_of_app;
             rewrite !list_elem_of_singleton; auto.
        -- rewrite Hks in Hksb. injection Hksb as <-.
           rewrite Hh2, lookup_insert_eq.
           split; [reflexivity |]. intros Hone. rewrite Hr2, Hone. simpl.
           apply elem_of_app. right. apply list_elem_of_singleton. reflexivity.
      * intros c Hc1 Hc2. rewrite Hh2, !lookup_insert_ne by congruence. reflexivity.
    + destruct Hp as (ksa & Hksa & _).
      destruct (put_effect a (log (EvRcuReplace OVPN_KEY_SLOT_PRIMARY None (Some a)) k)
                  ksa Hksa) as (Hh1 & Hr1 & _).
      simpl in Hh1, Hr1.
      split.
      * intros s c ks Hc Hks.
        destruct s; simpl in Hc; try discriminate; injection Hc as <-.
        rewrite Hks in Hksa. injection Hksa as <-.
        rewrite Hh1, lookup_insert_eq.
        split; [reflexivity |]. intros Hone. rewrite Hr1, Hone. simpl.
        apply elem_of_app. right. apply list_elem_of_singleton. reflexivity.
      * intros c Hc1 _. rewrite Hh1, lookup_insert_ne by congruence. reflexivity.
    + destruct Hs as (ksb & Hksb & _).
      destruct (put_effect b (log (EvRcuReplace OVPN_KEY_SLOT_SECONDARY None (Some b)) k)
                  ksb Hksb) as (Hh1 & Hr1 & _).
      simpl in Hh1, Hr1.
      split.
      * intros s c ks Hc Hks.
        destruct s; simpl in Hc; try discriminate; injection Hc as <-.
        rewrite Hks in Hksb. injection Hksb as <-.
        rewrite Hh1, lookup_insert_eq.
        split; [reflexivity |]. intros Hone. rewrite Hr1, Hone. simpl.
        apply elem_of_app. right. apply list_elem_of_singleton. reflexivity.
      * intros c _ Hc2. rewrite Hh1, lookup_insert_ne by congruence. reflexivity.
    + split; [| reflexivity].
      intros s c ks Hc. destruct s; discriminate.
Qed.

Lemma crypto_wf_K1 : crypto_wf cs_K1 kernel_K1.
Proof.
  unfold crypto_wf. simpl.
  split; [| split; [exact I | split; [discriminate |]]].
  - exists (set_ks_remote_peer_id 2 (aead_key_slot K1)).
    split; [reflexivity | vm_compute; discriminate].
  - intros a Ha. apply not_elem_of_nil in Ha. destruct Ha.
Defined.

(** Releasing the S1 state queues K1 and leaves the slots empty. *)
Lemma crypto_state_release_effect_K1 :
  cs_primary (fst (ovpn_crypto_state_release cs_K1 kernel_K1)) = None
  /\ 0%N ∈ ks_rcu (snd (ovpn_crypto_state_release cs_K1 kernel_K1)).
Proof.
  destruct (crypto_state_release_effect cs_K1 kernel_K1 crypto_wf_K1)
    as (H1 & _ & _ & _ & H5 & _).
  split; [exact H1 |].
  exact (proj2 (H5 OVPN_KEY_SLOT_PRIMARY 0%N
                  (set_ks_remote_peer_id 2 (aead_key_slot K1)) eq_refl eq_refl)
           eq_refl).
Defined.

Lemma encap_overhead_at overhead cs k a ks :
  cs_primary cs = Some a ->
  ks_heap k !! a = Some ks ->
  ks_ops ks = ovpn_aead_ops ->
  ovpn_crypto_encap_overhead overhead cs k = Some (overhead ks).
Proof.
  intros Ha Hks Hops. unfold ovpn_crypto_encap_overhead.
  rewrite Ha, Hks, Hops. reflexivity.
Qed.

(** X7: [ovpn_crypto_encap_overhead] looks at the primary slot only.  Once
    the primary slot is deleted it answers "no-key" (-ENOENT), whatever the
    secondary slot holds; installing a key in the secondary slot of a state
    without primary key does not change that; and after a successful
    [reset] into the primary slot it answers what the family reports for the
    key just installed. *)
Theorem encap_overhead_uses_primary
    (aead_setup : ovpn_key_config -> option errno)
    (overhead : ovpn_crypto_key_slot -> Z)
    (cs : ovpn_crypto_state) (k : kernel) :
  ovpn_crypto_encap_overhead overhead
    (fst (ovpn_crypto_key_slot_delete cs OVPN_KEY_SLOT_PRIMARY k))
    (snd (ovpn_crypto_key_slot_delete cs OVPN_KEY_SLOT_PRIMARY k))
  = Some (neg_errno ENOENT)
  /\ (forall pkr r cs' k',
        cs_primary cs = None ->
        pkr_slot pkr <> OVPN_KEY_SLOT_PRIMARY ->
        ovpn_crypto_state_reset aead_setup cs pkr k = Some (r, cs', k') ->
        ovpn_crypto_encap_overhead overhead cs' k' = Some (neg_errno ENOENT))
  /\ (forall pkr cs' k',
        pkr_slot pkr = OVPN_KEY_SLOT_PRIMARY ->
        ovpn_crypto_state_reset aead_setup cs pkr k = Some (0, cs', k') ->
        exists new ks,
          cs_primary cs' = Some new
          /\ ks_heap k' !! new = Some ks
          /\ ks_key_id ks = kc_key_id (pkr_key pkr)
          /\ ks_remote_peer_id ks = pkr_remote_peer_id pkr
          /\ ovpn_crypto_encap_overhead overhead cs' k' = Some (overhead ks)).
Proof.
  split; [| split].
  - rewrite key_slot_delete_form. reflexivity.
  - intros pkr r cs' k' Hp Hslot Hreset.
    assert (Hp' : cs_primary cs' = None).
    { destruct (reset_outcomes _ _ _ _ _ _ _ Hreset)
        as [(e & _ & -> & _) | [(_ & -> & _) | (_ & Hs & -> & _)]];
        [exact Hp | exact Hp |].
      destruct Hs as [Hs | Hs]; [contradiction | rewrite Hs; exact Hp]. }
    unfold ovpn_crypto_encap_overhead. rewrite Hp'. reflexivity.
  - intros pkr cs' k' Hslot Hreset.
    destruct (reset_outcomes _ _ _ _ _ _ _ Hreset)
      as [(e & Hr & _) | [(Hr & _) | (_ & _ & -> & ->)]].
    { exfalso. symmetry in Hr. exact (neg_errno_nonzero e Hr). }
    { discriminate. }
    rewrite Hslot. simpl slot_ptr.
    exists (fresh (dom (ks_heap k))).
    set (st := set_ks_remote_peer_id (pkr_remote_peer_id pkr)
                 (aead_key_slot (pkr_key pkr))).
    assert (Hst : ks_heap (kernel_after_install cs pkr k) !! fresh (dom (ks_heap k))
                  = Some st) by apply lookup_insert_eq.
    assert (Hks : exists n,
              ks_heap match cs_primary cs with
                      | Some o => ovpn_crypto_key_slot_put o (kernel_after_install cs pkr k)
                      | None => kernel_after_install cs pkr k
                      end !! fresh (dom (ks_heap k))
              = Some (set_ks_refcount n st)).
    { destruct (cs_primary cs) as [o |].
      - apply put_lookup, Hst.
      - exists (ks_refcount st). rewrite set_ks_refcount_same. exact Hst. }
    destruct Hks as [n Hn].
    exists (set_ks_refcount n st).
    split; [reflexivity |]. split; [exact Hn |].
    split; [reflexivity |]. split; [reflexivity |].
    apply (encap_overhead_at overhead _ _ (fresh (dom (ks_heap k))));
      [reflexivity | exact Hn | reflexivity].
Qed.

(** In S1 the overhead is the one of K1; with K1 only in the secondary slot
    there is no key to report on. *)
Lemma encap_overhead_uses_primary_S1 :
  (exists cs' k',
     ovpn_crypto_state_reset aead_accepts cs_aead S1_select kernel0 = Some (0, cs', k')
     /\ ovpn_crypto_encap_overhead overhead_20 cs' k' = Some 20)
  /\ (exists cs' k',
        ovpn_crypto_state_reset aead_accepts cs_aead K1_secondary kernel0
        = Some (0, cs', k')
        /\ ovpn_crypto_encap_overhead overhead_20 cs' k' = Some (neg_errno ENOENT)).
Proof.
  split; eexists _, _; (split; [vm_compute; reflexivity |]).
  - destruct (proj2 (proj2 (encap_overhead_uses_primary aead_accepts overhead_20
                              cs_aead kernel0)) S1_select _ _ eq_refl eq_refl)
      as (new & ks & _ & _ & _ & _ & H).
    exact H.
  - refine (proj1 (proj2 (encap_overhead_uses_primary aead_accepts overhead_20
                            cs_aead kernel0)) K1_secondary 0 _ _ eq_refl _ eq_refl).
    discriminate.
Defined.

(** ** More of peer.c *)

(** X8: every way [ovpn_peer_new] can return.  A peer is handed out only
    when all three allocations succeed; it then has one reference, is not
    halted, has no bind, an empty crypto state, empty rings and disarmed
    timers, and the kernel holds the peer, both rings and one more device
    reference.  An error pointer is returned only for a failed [kmalloc],
    with the kernel untouched; a failed ring gives [NULL], with every
    allocation given back and no device reference taken. *)
Theorem peer_new_outcomes (env : alloc_outcome) (k : kernel) :
  match ovpn_peer_new env k with
  | (Ptr p, k') =>
      kmalloc_peer_ok env = true
      /\ 0 <= tx_ring_init_ret env /\ 0 <= rx_ring_init_ret env
      /\ refcount p = 1%N /\ halt p = false /\ bind p = None
      /\ crypto p = ovpn_crypto_state_init
      /\ tx_ring p = [] /\ rx_ring p = [] /\ armed_timers p = 0
      /\ kmem k' = KRing RX_RING :: KRing TX_RING :: KPeer :: kmem k
      /\ dev_refcnt k' = N.succ (dev_refcnt k)
  | (ERR_PTR e, k') =>
      e = ENOMEM /\ kmalloc_peer_ok env = false /\ k' = k
  | (NULL, k') =>
      kmalloc_peer_ok env = true
      /\ (tx_ring_init_ret env < 0 \/ rx_ring_init_ret env < 0)
      /\ kmem k' = kmem k /\ dev_refcnt k' = dev_refcnt k
  end.
Proof.
  unfold ovpn_peer_new.
  destruct (kmalloc_peer_ok env); simpl; [| auto].
  destruct (tx_ring_init_ret env <? 0) eqn:Htx; simpl.
  { repeat split; try reflexivity. left. lia. }
  destruct (rx_ring_init_ret env <? 0) eqn:Hrx; simpl.
  { repeat split; try reflexivity. right. lia. }
  repeat split; try reflexivity; lia.
Qed.

Lemma put_kmem a k :
  kmem (ovpn_crypto_key_slot_put a k) = kmem k
  /\ dev_refcnt (ovpn_crypto_key_slot_put a k) = dev_refcnt k.
Proof.
  unfold ovpn_crypto_key_slot_put. simpl.
  destruct (ks_heap k !! a) as [ks |]; simpl; [| auto].
  destruct (kref_put (ks_refcount ks)) as [n []]; simpl; auto.
Qed.

Lemma crypto_release_kmem cs k :
  kmem (snd (ovpn_crypto_state_release cs k)) = kmem k
  /\ dev_refcnt (snd (ovpn_crypto_state_release cs k)) = dev_refcnt k.
Proof.
  unfold ovpn_crypto_state_release.
  destruct cs as [[a |] [b |] o]; simpl;
    repeat match goal with
           | |- context [ovpn_crypto_key_slot_put ?x ?k0] =>
               let H1 := fresh in let H2 := fresh in
               destruct (put_kmem x k0) as [H1 H2]; rewrite H1, H2; clear H1 H2; simpl
           end; auto.
Qed.

Lemma peer_put_kmem p k :
  kmem (snd (ovpn_peer_put p k)) = kmem k
  /\ dev_refcnt (snd (ovpn_peer_put p k)) = dev_refcnt k.
Proof.
  unfold ovpn_peer_put. destruct (kref_put (refcount p)) as [n []]; simpl; auto.
Qed.

Lemma timer_delete_kmem p t k :
  kmem (snd (ovpn_peer_timer_delete p t k)) = kmem k
  /\ dev_refcnt (snd (ovpn_peer_timer_delete p t k)) = dev_refcnt k.
Proof.
  unfold ovpn_peer_timer_delete, ovpn_timer_delete.
  destruct (pending (get_timer t p)); simpl; [| auto].
  match goal with
  | |- context [ovpn_peer_put ?x ?k0] => apply (peer_put_kmem x k0)
  end.
Qed.

Lemma timer_delete_all_kmem p k :
  kmem (snd (ovpn_peer_timer_delete_all p k)) = kmem k
  /\ dev_refcnt (snd (ovpn_peer_timer_delete_all p k)) = dev_refcnt k.
Proof.
  unfold ovpn_peer_timer_delete_all.
  destruct (timer_delete_kmem p KEEPALIVE_XMIT k) as [H1 H2].
  destruct (ovpn_peer_timer_delete p KEEPALIVE_XMIT k) as [p1 k1]. simpl in *.
  destruct (timer_delete_kmem p1 KEEPALIVE_EXPIRE k1) as [H3 H4].
  split; congruence.
Qed.

Lemma peer_release_kmem p k :
  kmem (ovpn_peer_release p k)
  = kfree KPeer (kfree (KRing RX_RING) (kfree (KRing TX_RING) (kmem k)))
  /\ dev_refcnt (ovpn_peer_release p k) = N.pred (dev_refcnt k).
Proof.
  unfold ovpn_peer_release.
  destruct (timer_delete_all_kmem (set_bind None p) (log EvBindReset k)) as [H1 H2].
  destruct (ovpn_peer_timer_delete_all (set_bind None p) (log EvBindReset k)) as [p1 k1].
  simpl in H1, H2.
  destruct (tx_ring p1); destruct (rx_ring p1); simpl; rewrite H1, H2; auto.
Qed.

Lemma peer_release_rcu_kmem p k :
  kmem (ovpn_peer_release_rcu p k)
  = kfree KPeer (kfree (KRing RX_RING) (kfree (KRing TX_RING) (kmem k)))
  /\ dev_refcnt (ovpn_peer_release_rcu p k) = N.pred (dev_refcnt k).
Proof.
  unfold ovpn_peer_release_rcu.
  destruct (crypto_release_kmem (crypto p) k) as [H1 H2].
  destruct (ovpn_crypto_state_release (crypto p) k) as [cs k1]. simpl in H1, H2.
  destruct (peer_release_kmem (set_crypto cs p) k1) as [H3 H4].
  rewrite H3, H4, H1, H2. auto.
Qed.

Lemma peer_new_success env k p k1 :
  ovpn_peer_new env k = (Ptr p, k1) ->
  p = peer_fresh
  /\ kmem k1 = KRing RX_RING :: KRing TX_RING :: KPeer :: kmem k
  /\ dev_refcnt k1 = N.succ (dev_refcnt k).
Proof.
  unfold ovpn_peer_new.
  destruct (kmalloc_peer_ok env); simpl; [| discriminate].
  destruct (tx_ring_init_ret env <? 0); simpl; [discriminate |].
  destruct (rx_ring_init_ret env <? 0); simpl; [discriminate |].
  intros [= <- <-]. repeat split.
Qed.

(** X9: construction and release balance.  Whatever state the peer is in
    when it is released, [ovpn_peer_release_rcu] gives back exactly what
    [ovpn_peer_new] took: the peer object, both rings and the device
    reference. *)
Theorem peer_new_release_balance
    (env : alloc_outcome) (k k1 k2 : kernel) (p p' : ovpn_peer) :
  ovpn_peer_new env k = (Ptr p, k1) ->
  kmem k2 = kmem k1 ->
  dev_refcnt k2 = dev_refcnt k1 ->
  kmem (ovpn_peer_release_rcu p' k2) = kmem k
  /\ dev_refcnt (ovpn_peer_release_rcu p' k2) = dev_refcnt k.
Proof.
  intros Hnew Hm Hd.
  destruct (peer_new_success env k p k1 Hnew) as (_ & Hkm & Hdev).
  destruct (peer_release_rcu_kmem p' k2) as [H1 H2].
  rewrite H1, H2, Hm, Hd, Hkm, Hdev. simpl.
  split; [reflexivity | apply N.pred_succ].
Qed.

(** A fresh peer released at once. *)
Lemma peer_new_release_balance_fresh :
  exists p k1,
    ovpn_peer_new alloc_ok kernel0 = (Ptr p, k1)
    /\ kmem (ovpn_peer_release_rcu p k1) = kmem kernel0
    /\ dev_refcnt (ovpn_peer_release_rcu p k1) = dev_refcnt kernel0.
Proof.
  eexists _, _. split; [reflexivity |].
  exact (peer_new_release_balance alloc_ok kernel0 _ _ _ _ eq_refl eq_refl eq_refl).
Defined.

(** X10: [ovpn_peer_new_with_sockaddr], when the allocations succeed.  If
    the bind cannot be built, the error of the bind is returned and the
    partial peer is released: the peer object, both rings and the device
    reference are given back.  Otherwise the peer is handed out with the
    bind installed and its single reference. *)
Theorem peer_new_with_sockaddr_outcomes
    (env : alloc_outcome) (bind_res : ptr N) (k : kernel) :
  kmalloc_peer_ok env = true ->
  0 <= tx_ring_init_ret env ->
  0 <= rx_ring_init_ret env ->
  match bind_res with
  | ERR_PTR e =>
      exists k',
        ovpn_peer_new_with_sockaddr env bind_res k = Some (ERR_PTR e, k')
        /\ kmem k' = kmem k /\ dev_refcnt k' = dev_refcnt k
  | Ptr b =>
      exists p k',
        ovpn_peer_new_with_sockaddr env bind_res k = Some (Ptr p, k')
        /\ bind p = Some b /\ refcount p = 1%N /\ halt p = false
        /\ dev_refcnt k' = N.succ (dev_refcnt k)
  | NULL =>
      exists p k',
        ovpn_peer_new_with_sockaddr env bind_res k = Some (Ptr p, k')
        /\ bind p = None /\ refcount p = 1%N /\ halt p = false
        /\ dev_refcnt k' = N.succ (dev_refcnt k)
  end.
Proof.
  intros Hk Htx Hrx.
  assert (Hnew : exists k1, ovpn_peer_new env k = (Ptr peer_fresh, k1)).
  { unfold ovpn_peer_new. rewrite Hk. simpl.
    destruct (tx_ring_init_ret env <? 0) eqn:E1; [lia |].
    destruct (rx_ring_init_ret env <? 0) eqn:E2; [lia |].
    simpl. eexists. reflexivity. }
  destruct Hnew as [k1 Hnew].
  destruct (peer_new_success env k _ k1 Hnew) as (_ & Hkm & Hdev).
  unfold ovpn_peer_new_with_sockaddr. rewrite Hnew.
  destruct bind_res as [b | e |]; simpl.
  - eexists _, _. split; [reflexivity |]. repeat split. exact Hdev.
  - eexists. split; [reflexivity |].
    destruct (peer_release_kmem peer_fresh k1) as [H1 H2].
    rewrite H1, H2, Hkm, Hdev. simpl. split; [reflexivity | apply N.pred_succ].
  - eexists _, _. split; [reflexivity |]. repeat split. exact Hdev.
Qed.

(** A bind that cannot be built for want of memory. *)
Lemma peer_new_with_sockaddr_outcomes_enomem :
  exists k',
    ovpn_peer_new_with_sockaddr alloc_ok (ERR_PTR ENOMEM) kernel0
    = Some (ERR_PTR ENOMEM, k')
    /\ kmem k' = kmem kernel0 /\ dev_refcnt k' = dev_refcnt kernel0.
Proof.
  refine (peer_new_with_sockaddr_outcomes alloc_ok (ERR_PTR ENOMEM) kernel0
            eq_refl _ _); discriminate.
Defined.

Lemma set_refcount_same p : set_refcount (refcount p) p = p.
Proof. destruct p; reflexivity. Qed.

(** X11: [ovpn_peer_get] never resurrects a peer.  A peer without
    reference is not handed out and is left as it is, so a peer whose last
    reference [ovpn_peer_delete] has dropped cannot be obtained any more; a
    tunnel without peer gives nothing.  A peer that still has a reference
    is handed out with one reference more, and putting that reference again
    gives back the peer as it was, with no release scheduled. *)
Theorem peer_get_never_resurrects (p : ovpn_peer) (k : kernel) :
  ovpn_peer_get None = (false, None)
  /\ (refcount p = 0%N -> ovpn_peer_get (Some p) = (false, Some p))
  /\ (halt p = false -> refcount p = 1%N ->
        ovpn_peer_get (Some (fst (ovpn_peer_delete p k)))
        = (false, Some (fst (ovpn_peer_delete p k))))
  /\ ((1 <= refcount p)%N ->
        exists held,
          ovpn_peer_get (Some p) = (true, Some held)
          /\ refcount held = (refcount p + 1)%N
          /\ ovpn_peer_put held k = (p, k)).
Proof.
  split; [reflexivity |]. split; [| split].
  - intros H0. unfold ovpn_peer_get, ovpn_peer_hold. rewrite H0. reflexivity.
  - intros Hh H1. destruct p as [st hl bd cr rc tx rx tx_t rx_t].
    simpl in Hh, H1. subst. reflexivity.
  - intros H1. unfold ovpn_peer_get, ovpn_peer_hold, ovpn_peer_put.
    destruct p as [st hl bd cr [| rc] tx rx tx_t rx_t]; simpl in *; [lia |].
    eexists. split; [reflexivity |]. split; [simpl; lia |].
    simpl. unfold set_refcount. simpl.
    rewrite N.pred_succ. destruct rc; reflexivity.
Qed.

(** The fresh peer after its delete, and the fresh peer held and put. *)
Lemma peer_get_never_resurrects_fresh :
  ovpn_peer_get (Some (fst (ovpn_peer_delete peer_fresh kernel0)))
  = (false, Some (fst (ovpn_peer_delete peer_fresh kernel0)))
  /\ exists held,
       ovpn_peer_get (Some peer_fresh) = (true, Some held)
       /\ refcount held = (refcount peer_fresh + 1)%N
       /\ ovpn_peer_put held kernel0 = (peer_fresh, kernel0).
Proof.
  destruct (peer_get_never_resurrects peer_fresh kernel0) as (_ & _ & H3 & H4).
  split; [exact (H3 eq_refl eq_refl) |].
  apply H4. vm_compute. discriminate.
Defined.

(** X12: however often [ovpn_peer_delete] is called, the deferred release
    is scheduled at most once: exactly once when the caller's reference was
    the last one, and not at all while other references remain.  The delete
    itself frees nothing and keeps the device reference. *)
Theorem peer_delete_schedules_release (peer : ovpn_peer) (k : kernel) (n : nat) :
  halt peer = false ->
  (1 <= refcount peer)%N ->
  peer_rcu (snd (ovpn_peer_delete_n (S n) peer k))
  = (peer_rcu k + if N.eqb (refcount peer) 1 then 1 else 0)%nat
  /\ kmem (snd (ovpn_peer_delete_n (S n) peer k)) = kmem k
  /\ dev_refcnt (snd (ovpn_peer_delete_n (S n) peer k)) = dev_refcnt k.
Proof.
  intros Hhalt Href.
  assert (Hn : ovpn_peer_delete_n (S n) peer k
               = (set_refcount (refcount peer - 1) (set_halt true peer),
                  if N.eqb (refcount peer) 1 then ovpn_peer_release_kref k else k)).
  { induction n as [| n IH].
    - unfold ovpn_peer_delete_n. simpl.
      unfold ovpn_peer_delete, ovpn_peer_put. rewrite Hhalt.
      simpl. rewrite kref_put_pos by exact Href. reflexivity.
    - unfold ovpn_peer_delete_n in *. rewrite Nat.iter_succ, IH. simpl.
      apply peer_delete_halted. reflexivity. }
  rewrite Hn. simpl.
  destruct (N.eqb (refcount peer) 1); simpl; repeat split; lia.
Qed.

(** A fresh peer deleted three times, and a peer that a timer still holds. *)
Lemma peer_delete_schedules_release_examples :
  peer_rcu (snd (ovpn_peer_delete_n 3 peer_fresh kernel0)) = 1%nat
  /\ peer_rcu (snd (ovpn_peer_delete_n 3 peer_xmit_armed kernel0)) = 0%nat.
Proof.
  split.
  - refine (proj1 (peer_delete_schedules_release peer_fresh kernel0 2 eq_refl _)).
    vm_compute. discriminate.
  - refine (proj1 (peer_delete_schedules_release peer_xmit_armed kernel0 2 eq_refl _)).
    vm_compute. discriminate.
Defined.

(** *** Diagnostics of the release routine *)

Lemma warnings_app l1 l2 : warnings (l1 ++ l2) = (warnings l1 + warnings l2)%nat.
Proof.
  induction l1 as [| e l1 IH]; simpl; [reflexivity |].
  destruct e; simpl; rewrite IH; reflexivity.
Qed.

Lemma warnings_none l : Forall (fun e => e <> EvWarn) l -> warnings l = 0%nat.
Proof.
  induction 1 as [| e l He _ IH]; simpl; [reflexivity |].
  destruct e; try exact IH. contradiction.
Qed.

Lemma crypto_events_no_warning l :
  Forall (fun e => step_of e = Some RelCrypto) l -> Forall (fun e => e <> EvWarn) l.
Proof.
  intros H. eapply Forall_impl; [exact H |].
  intros e He ->. discriminate.
Qed.

Lemma peer_release_events p k :
  exists T,
    trace (ovpn_peer_release p k)
    = trace k ++ EvBindReset :: T
        ++ match tx_ring p with [] => [] | _ => [EvWarn] end
        ++ [EvRingCleanup TX_RING (length (tx_ring p))]
        ++ match rx_ring p with [] => [] | _ => [EvWarn] end
        ++ [EvRingCleanup RX_RING (length (rx_ring p));
            EvDevPut; EvPeerMutexDestroy; EvKfreePeer]
    /\ Forall (fun e => e <> EvWarn) T.
Proof.
  unfold ovpn_peer_release.
  destruct (timer_delete_all_trace (set_bind None p) (log EvBindReset k))
    as (T & HT & _ & _ & W & Tx & Rx & _).
  destruct (ovpn_peer_timer_delete_all (set_bind None p) (log EvBindReset k)) as [p1 k1].
  simpl in HT, Tx, Rx. exists T. split; [| exact W].
  replace (tx_ring p) with (tx_ring p1) by (rewrite Tx; destruct p; reflexivity).
  replace (rx_ring p) with (rx_ring p1) by (rewrite Rx; destruct p; reflexivity).
  destruct (tx_ring p1); destruct (rx_ring p1); simpl; rewrite HT;
    rewrite <- !app_assoc; simpl; rewrite <- ?app_assoc; reflexivity.
Qed.

(** X13: the release routine raises a warning exactly for each ring that
    still holds packets, one for the TX ring and one for the RX ring, and
    for nothing else; each ring is then cleaned up with all the packets left
    in it handed to the destructor. *)
Theorem peer_release_warns_on_backlog (p : ovpn_peer) (k : kernel) :
  warnings (new_events k (ovpn_peer_release_rcu p k))
  = ((match tx_ring p with [] => 0 | _ => 1 end)
     + (match rx_ring p with [] => 0 | _ => 1 end))%nat
  /\ EvRingCleanup TX_RING (length (tx_ring p))
       ∈ new_events k (ovpn_peer_release_rcu p k)
  /\ EvRingCleanup RX_RING (length (rx_ring p))
       ∈ new_events k (ovpn_peer_release_rcu p k).
Proof.
  unfold ovpn_peer_release_rcu.
  destruct (crypto_release_trace (crypto p) k) as (C & HC & _ & FC).
  destruct (ovpn_crypto_state_release (crypto p) k) as [cs k1]. simpl in HC.
  destruct (peer_release_events (set_crypto cs p) k1) as (T & HR & W).
  replace (tx_ring (set_crypto cs p)) with (tx_ring p) in HR by (destruct p; reflexivity).
  replace (rx_ring (set_crypto cs p)) with (rx_ring p) in HR by (destruct p; reflexivity).
  rewrite HC, <- app_assoc in HR.
  rewrite (new_events_app _ _ _ HR).
  split; [| split].
  - rewrite warnings_app, (warnings_none C) by (apply crypto_events_no_warning, FC).
    simpl. rewrite warnings_app, (warnings_none T W).
    destruct (tx_ring p); destruct (rx_ring p); reflexivity.
  - apply elem_of_app. right. apply elem_of_cons. right.
    apply elem_of_app. right. apply elem_of_app. right.
    apply elem_of_cons. left. reflexivity.
  - apply elem_of_app. right. apply elem_of_cons. right.
    apply elem_of_app. right. apply elem_of_app. right.
    apply elem_of_cons. right. apply elem_of_app. right.
    apply elem_of_cons. left. reflexivity.
Qed.

(** One backlogged ring, one warning. *)
Lemma peer_release_warns_on_backlog_example :
  warnings (new_events kernel0 (ovpn_peer_release_rcu peer_tx_backlog kernel0)) = 1%nat.
Proof.
  exact (proj1 (peer_release_warns_on_backlog peer_tx_backlog kernel0)).
Defined.

(** *** Timers hold their references until they are cancelled *)

Lemma timer_delete_all_balance p k :
  armed_timers p <= Z.of_N (refcount p) ->
  Z.of_N (refcount (fst (ovpn_peer_timer_delete_all p k)))
  = Z.of_N (refcount p) - armed_timers p
  /\ armed_timers (fst (ovpn_peer_timer_delete_all p k)) = 0.
Proof.
  destruct p as [st hl bd cr [| [r | r |]] tx rx [xp [|]] [ep [|]]];
    unfold armed_timers, timer_armed; simpl; intros H; try lia;
    split; (reflexivity || lia).
Qed.

(** [ovpn_peer_set_keepalive] never arms more timers than it takes
    references. *)
Lemma set_keepalive_balance_le p ping timeout k :
  armed_timers (fst (ovpn_peer_set_keepalive p ping timeout k)) - armed_timers p
  <= Z.of_N (refcount (fst (ovpn_peer_set_keepalive p ping timeout k)))
     - Z.of_N (refcount p).
Proof.
  destruct p as [st hl bd cr [| rc] tx rx [xp [|]] [ep [|]]];
    destruct ping, timeout; cbv - [Z.sub Z.le Pos.succ]; lia.
Qed.

(** X14: keepalive changes never over-release, and they return every
    reference unless they disarm a pending timer by a zero period.  If every
    armed timer owns a reference, then so it is after
    [ovpn_peer_set_keepalive]; cancelling both timers afterwards leaves no
    timer armed and at least the references that were not owned by a timer
    before; and it leaves exactly those when no pending timer was given a
    zero period. *)
Theorem keepalive_references_balance
    (p : ovpn_peer) (ping timeout : N) (k : kernel) :
  armed_timers p <= Z.of_N (refcount p) ->
  armed_timers (fst (ovpn_peer_set_keepalive p ping timeout k))
    <= Z.of_N (refcount (fst (ovpn_peer_set_keepalive p ping timeout k)))
  /\ armed_timers
       (fst (ovpn_peer_timer_delete_all
               (fst (ovpn_peer_set_keepalive p ping timeout k))
               (snd (ovpn_peer_set_keepalive p ping timeout k)))) = 0
  /\ Z.of_N (refcount p) - armed_timers p
     <= Z.of_N (refcount
          (fst (ovpn_peer_timer_delete_all
                  (fst (ovpn_peer_set_keepalive p ping timeout k))
                  (snd (ovpn_peer_set_keepalive p ping timeout k)))))
  /\ ((ping = 0%N -> pending (keepalive_xmit p) = false) ->
      (timeout = 0%N -> pending (keepalive_expire p) = false) ->
      Z.of_N (refcount
        (fst (ovpn_peer_timer_delete_all
                (fst (ovpn_peer_set_keepalive p ping timeout k))
                (snd (ovpn_peer_set_keepalive p ping timeout k)))))
      = Z.of_N (refcount p) - armed_timers p).
Proof.
  intros H.
  pose proof (set_keepalive_balance_le p ping timeout k) as Hle.
  assert (H1 : armed_timers (fst (ovpn_peer_set_keepalive p ping timeout k))
               <= Z.of_N (refcount (fst (ovpn_peer_set_keepalive p ping timeout k))))
    by lia.
  destruct (timer_delete_all_balance
              (fst (ovpn_peer_set_keepalive p ping timeout k))
              (snd (ovpn_peer_set_keepalive p ping timeout k)) H1) as [H2 H3].
  split; [exact H1 |]. split; [exact H3 |]. split; [lia |].
  intros Hx He.
  pose proof (set_keepalive_balance p ping timeout k Hx He) as Hb. lia.
Qed.

(** The peer with a pending xmit timer, given a new ping period and no
    timeout, then both timers cancelled: the reference of the tunnel is
    left. *)
Lemma keepalive_references_balance_rearmed :
  Z.of_N (refcount
    (fst (ovpn_peer_timer_delete_all
            (fst (ovpn_peer_set_keepalive peer_xmit_armed 5 0 kernel0))
            (snd (ovpn_peer_set_keepalive peer_xmit_armed 5 0 kernel0)))))
  = Z.of_N (refcount peer_xmit_armed) - armed_timers peer_xmit_armed.
Proof.
  refine (proj2 (proj2 (proj2
            (keepalive_references_balance peer_xmit_armed 5 0 kernel0 _))) _ _).
  - vm_compute. discriminate.
  - intros Hz. discriminate Hz.
  - intros _. reflexivity.
Defined.

(** X15: keepalive settings cannot revive a dying peer.  On a peer without
    reference and without armed timer, [ovpn_peer_set_keepalive] records the
    periods and nothing else: the reference it needs for a timer is refused,
    the timer it has just armed is deleted again, and the count stays
    zero. *)
Theorem set_keepalive_on_dead_peer
    (p : ovpn_peer) (ping timeout : N) (k : kernel) :
  refcount p = 0%N ->
  armed_timers p = 0 ->
  refcount (fst (ovpn_peer_set_keepalive p ping timeout k)) = 0%N
  /\ armed_timers (fst (ovpn_peer_set_keepalive p ping timeout k)) = 0
  /\ period (keepalive_xmit (fst (ovpn_peer_set_keepalive p ping timeout k))) = ping
  /\ period (keepalive_expire (fst (ovpn_peer_set_keepalive p ping timeout k))) = timeout
  /\ snd (ovpn_peer_set_keepalive p ping timeout k) = k.
Proof.
  destruct p as [st hl bd cr [| rc] tx rx [xp [|]] [ep [|]]];
    unfold armed_timers, timer_armed; simpl; intros Hr Ha;
    try discriminate; try lia;
    destruct ping, timeout; repeat split; reflexivity.
Qed.

(** The dead peer of the tunnel with its backlog, asked for 1 s / 3 s. *)
Lemma set_keepalive_on_dead_peer_example :
  refcount (fst (ovpn_peer_set_keepalive peer_tx_backlog 1 3 kernel0)) = 0%N
  /\ armed_timers (fst (ovpn_peer_set_keepalive peer_tx_backlog 1 3 kernel0)) = 0.
Proof.
  destruct (set_keepalive_on_dead_peer peer_tx_backlog 1 3 kernel0 eq_refl eq_refl)
    as (H1 & H2 & _).
  split; [exact H1 | exact H2].
Defined.

(** *** Each timer operation on its own *)

(** X16: what a single timer operation does to the reference count.  A
    (re)schedule from the control path changes the count by the change in
    the number of armed timers, as long as it does not disarm a pending
    timer by a zero period; a delete changes it by the arming change
    whenever a pending timer owns a reference; a reschedule by the handler
    of a timer that has just fired keeps the timer's reference if it
    re-arms and returns it otherwise; and a second
    [ovpn_peer_set_keepalive] with the same values changes nothing. *)
Theorem timer_operations_balance
    (peer : ovpn_peer) (t : timer_id) (k : kernel) (ping timeout : N) :
  ((period (get_timer t peer) = 0%N -> pending (get_timer t peer) = false) ->
   Z.of_N (refcount (fst (ovpn_peer_timer_schedule peer t 0 k))) - Z.of_N (refcount peer)
   = armed_timers (fst (ovpn_peer_timer_schedule peer t 0 k)) - armed_timers peer)
  /\ ((pending (get_timer t peer) = true -> (1 <= refcount peer)%N) ->
      Z.of_N (refcount (fst (ovpn_peer_timer_delete peer t k))) - Z.of_N (refcount peer)
      = armed_timers (fst (ovpn_peer_timer_delete peer t k)) - armed_timers peer)
  /\ (pending (get_timer t peer) = false -> (1 <= refcount peer)%N ->
      Z.of_N (refcount (fst (ovpn_peer_timer_schedule peer t (-1) k)))
        - Z.of_N (refcount peer)
      = timer_armed t (fst (ovpn_peer_timer_schedule peer t (-1) k)) - 1)
  /\ ovpn_peer_set_keepalive
       (fst (ovpn_peer_set_keepalive peer ping timeout k)) ping timeout
       (snd (ovpn_peer_set_keepalive peer ping timeout k))
     = ovpn_peer_set_keepalive peer ping timeout k.
Proof.
  split; [apply timer_schedule_balance |].
  split; [apply timer_delete_balance |].
  split; [apply timer_handler_balance | apply set_keepalive_twice].
Qed.

(** X16 on a pending timer that is rescheduled and that is deleted, and on a
    timer that has fired. *)
Lemma timer_operations_balance_examples :
  (Z.of_N (refcount (fst (ovpn_peer_timer_schedule peer_xmit_armed KEEPALIVE_XMIT 0 kernel0)))
     - Z.of_N (refcount peer_xmit_armed)
   = armed_timers (fst (ovpn_peer_timer_schedule peer_xmit_armed KEEPALIVE_XMIT 0 kernel0))
     - armed_timers peer_xmit_armed)
  /\ (Z.of_N (refcount (fst (ovpn_peer_timer_delete peer_xmit_armed KEEPALIVE_XMIT kernel0)))
        - Z.of_N (refcount peer_xmit_armed)
      = armed_timers (fst (ovpn_peer_timer_delete peer_xmit_armed KEEPALIVE_XMIT kernel0))
        - armed_timers peer_xmit_armed)
  /\ (Z.of_N (refcount (fst (ovpn_peer_timer_schedule peer_fresh KEEPALIVE_XMIT (-1) kernel0)))
        - Z.of_N (refcount peer_fresh)
      = timer_armed KEEPALIVE_XMIT
          (fst (ovpn_peer_timer_schedule peer_fresh KEEPALIVE_XMIT (-1) kernel0)) - 1).
Proof.
  split; [| split].
  - apply (proj1 (timer_operations_balance peer_xmit_armed KEEPALIVE_XMIT kernel0 1 3)).
    intros Hz. discriminate Hz.
  - apply (proj1 (proj2 (timer_operations_balance peer_xmit_armed KEEPALIVE_XMIT kernel0 1 3))).
    intros _. vm_compute. discriminate.
  - apply (proj1 (proj2 (proj2
             (timer_operations_balance peer_fresh KEEPALIVE_XMIT kernel0 1 3)))).
    + reflexivity.
    + vm_compute. discriminate.
Defined.
